(** * QmkHidGear: the HID command-packet layer of [QMK_Interface.py] and the
    polling loops of [QMKGear.py], embedded in Rocq.

    Python integers are [Z]; byte buffers are [list Z] whose elements are
    checked against [0, 256) where the source converts them with
    [bytes(bytearray(...))].  A [QMKKeyboard] object is a record living in a
    heap addressed by object references, methods take [self] as a reference,
    and every call that leaves the process (the [hid] module, [time.sleep],
    a registered callback) is appended to a trace. *)

From stdpp Require Import gmap strings list functions.

Local Open Scope Z_scope.

(** ** Python values and exceptions *)

(** The values [parse_commands] can return ([Optional[Dict]]) and the values
    they are compared with. *)
Inductive pyval :=
| PyNone
| PyInt (n : Z)
| PyDict (items : list (string * option Z)).

(** [v == n] for an [int] literal [n]: [None] and a [dict] never compare equal
    to an [int] (both sides answer [NotImplemented], so the comparison falls
    back to identity). *)
Definition py_eq_int (v : pyval) (n : Z) : bool :=
  match v with
  | PyInt m => m =? n
  | PyNone | PyDict _ => false
  end.

Inductive exn :=
| CouldNotFindKeyboard
| KeyboardDisconnected
| CorruptResponse
| UnknownCommand
| DataPacketTooLarge
| HIDException
| ValueError
| UnicodeDecodeError
| AttributeError
| RecursionError
| OtherException (name : string).

Inductive outcome (A : Type) :=
| Ok (a : A)
| Raise (e : exn).
Arguments Ok {A} a.
Arguments Raise {A} e.

(** ** Module-level data of [QMK_Interface.py] *)

(** [class SystemMembers(Enum)] *)
Inductive SystemMembers := switched_out | Fluttershy | Hibiki | Luna.

(** [SystemMembers(value)]: lookup by value, [None] stands for the
    [ValueError] the enum raises on a value it does not have. *)
Definition SystemMembers_of_value (v : Z) : option SystemMembers :=
  if v =? 0 then Some switched_out
  else if v =? 1 then Some Fluttershy
  else if v =? 2 then Some Hibiki
  else if v =? 3 then Some Luna
  else None.

(** [@dataclass class HSV] *)
Record HSV := mkHSV { Hue : Z; Sat : Z; Val : Z }.

(** [class Commands] *)
Module Commands.
Definition Do_Nothing : Z := 0.
Definition KB_Set_Fronter : Z := 1.
Definition KB_Set_All_RGB_LEDs : Z := 2.
Definition KB_Set_RGB_LEDs : Z := 3.
Definition KB_Activity_Ping : Z := 4.
Definition PC_Raw_Debug_Msg : Z := 120.
Definition PC_Debug_Msg : Z := 121.
Definition PC_Switch_Fronter : Z := 122.
Definition PC_Notify_Layer_Change : Z := 123.
Definition PC_Activity_Ping : Z := 124.
End Commands.

(** ** Objects, the heap and the trace *)

Definition obj_ref := nat.      (* a reference to a QMKKeyboard object *)
Definition hid_device := nat.   (* an open [hid.Device] *)
Definition hid_path := nat.     (* the opaque path of an enumerated device *)
Definition fn_ref := nat.       (* a Python callable stored in [callbacks] *)

(** The mutable fields of [class QMKKeyboard] ([kb_info] is static table data
    that none of the modelled methods reads). *)
Record QMKKeyboard := mkKeyboard {
  keyboard_type : string;
  vendor_id : Z;
  product_id : Z;
  packet_size : Z;
  usage_page : Z;
  usage : Z;
  qmk : option hid_device;
  connected : bool;
  callbacks : gmap Z fn_ref
}.

Definition set_connected (b : bool) (kb : QMKKeyboard) : QMKKeyboard :=
  mkKeyboard (keyboard_type kb) (vendor_id kb) (product_id kb) (packet_size kb)
             (usage_page kb) (usage kb) (qmk kb) b (callbacks kb).

Definition set_qmk (d : option hid_device) (kb : QMKKeyboard) : QMKKeyboard :=
  mkKeyboard (keyboard_type kb) (vendor_id kb) (product_id kb) (packet_size kb)
             (usage_page kb) (usage kb) d (connected kb) (callbacks kb).

Inductive Event :=
| HidEnumerate
| HidOpen (path : hid_path)
| HidWrite (dev : hid_device) (data : list Z)
| HidRead (dev : hid_device) (length timeout : Z)
| HidClose (dev : hid_device)
| Sleep (milliseconds : Z)
| Call (fn : fn_ref) (self : obj_ref) (args : list pyval).

Record World := mkWorld {
  heap : obj_ref -> QMKKeyboard;
  trace : list Event
}.

(** An entry of [hid.enumerate()]. *)
Record HidItem := mkHidItem {
  item_vendor_id : Z;
  item_product_id : Z;
  item_usage_page : Z;
  item_usage : Z;
  item_path : option hid_path
}.

(** The [hid] module is outside the program: each of its operations answers
    as a function of everything that happened so far.  [None] is a raised
    [hid.HIDException]. *)
Record HidApi := mkHidApi {
  hid_enumerate : list Event -> list HidItem;
  hid_Device : list Event -> hid_path -> option hid_device;
  hid_write : list Event -> hid_device -> list Z -> option Z;
  hid_read : list Event -> hid_device -> Z -> Z -> option (list Z)
}.

(** ** The state-and-exception monad of the embedding *)

Definition Py (A : Type) : Type := World -> outcome A * World.

Definition ret {A} (a : A) : Py A := fun w => (Ok a, w).

Definition raise {A} (e : exn) : Py A := fun w => (Raise e, w).

Definition bind {A B} (c : Py A) (k : A -> Py B) : Py B :=
  fun w =>
    match c w with
    | (Ok a, w') => k a w'
    | (Raise e, w') => (Raise e, w')
    end.

Notation "x <- c ;; k" := (bind c (fun x => k))
  (at level 100, c at next level, right associativity).
Notation "c ;;; k" := (bind c (fun _ => k))
  (at level 100, right associativity).

(** [try: c except E: handler] where [handles e] tells whether the clause
    matches. *)
Definition try_except {A} (c : Py A) (handles : exn -> bool) (handler : Py A)
  : Py A :=
  fun w =>
    match c w with
    | (Ok a, w') => (Ok a, w')
    | (Raise e, w') => if handles e then handler w' else (Raise e, w')
    end.

Definition get_obj (self : obj_ref) : Py QMKKeyboard :=
  fun w => (Ok (heap w self), w).

Definition update_obj (self : obj_ref) (f : QMKKeyboard -> QMKKeyboard) : Py unit :=
  fun w => (Ok tt, mkWorld (<[self := f (heap w self)]> (heap w)) (trace w)).

Definition emit (ev : Event) : Py unit :=
  fun w => (Ok tt, mkWorld (heap w) (trace w ++ [ev])).

Definition is_HIDException (e : exn) : bool :=
  match e with HIDException => true | _ => false end.
Definition is_KeyboardDisconnected (e : exn) : bool :=
  match e with KeyboardDisconnected => true | _ => false end.
Definition is_CouldNotFindKeyboard (e : exn) : bool :=
  match e with CouldNotFindKeyboard => true | _ => false end.

(** ** Byte helpers *)

Definition len {A} (l : list A) : Z := Z.of_nat (length l).

Definition is_byte (b : Z) : bool := (0 <=? b) && (b <? 256).

(** [int.from_bytes(bs, byteorder='little', signed=False)] *)
Fixpoint int_from_bytes_little (bs : list Z) : Z :=
  match bs with
  | [] => 0
  | b :: rest => b + 256 * int_from_bytes_little rest
  end.

Definition in_range (lo hi b : Z) : bool := (lo <=? b) && (b <=? hi).

Definition utf8_cont (b : Z) : bool := in_range 128 191 b.

(** Whether [bytes(bs).decode()] succeeds (strict UTF-8: no overlong forms,
    no surrogates, nothing above U+10FFFF). *)
Fixpoint utf8_valid (bs : list Z) : bool :=
  match bs with
  | [] => true
  | b0 :: t0 =>
    if in_range 0 127 b0 then utf8_valid t0
    else if in_range 194 223 b0 then
      match t0 with
      | b1 :: t1 => utf8_cont b1 && utf8_valid t1
      | _ => false
      end
    else if in_range 224 239 b0 then
      match t0 with
      | b1 :: b2 :: t2 =>
        (if b0 =? 224 then in_range 160 191 b1
         else if b0 =? 237 then in_range 128 159 b1
         else utf8_cont b1)
        && utf8_cont b2 && utf8_valid t2
      | _ => false
      end
    else if in_range 240 244 b0 then
      match t0 with
      | b1 :: b2 :: b3 :: t3 =>
        (if b0 =? 240 then in_range 144 191 b1
         else if b0 =? 244 then in_range 128 143 b1
         else utf8_cont b1)
        && utf8_cont b2 && utf8_cont b3 && utf8_valid t3
      | _ => false
      end
    else false
  end.

(** ** [class QMKKeyboard] *)

Definition LILY58 : string := "lily58".
Definition NAVI10 : string := "navi10".

(** [QMKKeyboard.__init__]: the object a successful construction yields;
    an unsupported [keyboard_type] raises [ValueError]. *)
Definition QMKKeyboard_init (keyboard_type : string)
    (callbacks : option (gmap Z fn_ref)) : outcome QMKKeyboard :=
  if String.eqb keyboard_type LILY58 then
    Ok (mkKeyboard keyboard_type 0x04D8 0xEB2D 32 0xFF60 0x61 None false
                   (default ∅ callbacks))
  else if String.eqb keyboard_type NAVI10 then
    Ok (mkKeyboard keyboard_type 0xFEED 0x0000 32 0xFF60 0x61 None false
                   (default ∅ callbacks))
  else Raise ValueError.

(** [construct_command_packet]: report id, command type, data length, then
    the payload. *)
Definition construct_command_packet (command_type : Z) (command_data : list Z)
  : list Z :=
  [0; command_type; len command_data] ++ command_data.

Section Program.

Variable hid : HidApi.
(** What calling a registered callback does is up to the caller's code. *)
Variable call_function : fn_ref -> obj_ref -> list pyval -> Py unit.

(** *** The [hid] collaborator, traced *)

Definition enumerate : Py (list HidItem) :=
  fun w => (Ok (hid_enumerate hid (trace w)),
            mkWorld (heap w) (trace w ++ [HidEnumerate])).

Definition Device (path : hid_path) : Py hid_device :=
  fun w =>
    let w' := mkWorld (heap w) (trace w ++ [HidOpen path]) in
    match hid_Device hid (trace w) path with
    | Some dev => (Ok dev, w')
    | None => (Raise HIDException, w')
    end.

Definition Device_write (dev : hid_device) (data : list Z) : Py Z :=
  fun w =>
    let w' := mkWorld (heap w) (trace w ++ [HidWrite dev data]) in
    match hid_write hid (trace w) dev data with
    | Some n => (Ok n, w')
    | None => (Raise HIDException, w')
    end.

Definition Device_read (dev : hid_device) (length timeout : Z) : Py (list Z) :=
  fun w =>
    let w' := mkWorld (heap w) (trace w ++ [HidRead dev length timeout]) in
    match hid_read hid (trace w) dev length timeout with
    | Some data => (Ok data, w')
    | None => (Raise HIDException, w')
    end.

Definition Device_close (dev : hid_device) : Py unit := emit (HidClose dev).

Definition sleep (milliseconds : Z) : Py unit := emit (Sleep milliseconds).

Definition invoke (fn : fn_ref) (self : obj_ref) (args : list pyval) : Py unit :=
  emit (Call fn self args) ;;; call_function fn self args.

(** *** Connection management *)

(** The [for hid_item in enumerated_devices] loop of [open]; [true] means
    the method returned from inside the loop. *)
Fixpoint open_loop (self : obj_ref) (items : list HidItem) : Py bool :=
  match items with
  | [] => ret false
  | hid_item :: rest =>
    kb <- get_obj self ;;
    if (vendor_id kb =? item_vendor_id hid_item)
       && (product_id kb =? item_product_id hid_item)
       && (usage_page kb =? item_usage_page hid_item)
       && (usage kb =? item_usage hid_item)
    then
      match item_path hid_item with
      | Some hid_path =>
        dev <- Device hid_path ;;
        update_obj self (set_qmk (Some dev)) ;;;
        update_obj self (set_connected true) ;;;
        ret true
      | None => open_loop self rest
      end
    else open_loop self rest
  end.

Definition open (self : obj_ref) : Py unit :=
  enumerated_devices <- enumerate ;;
  returned <- open_loop self enumerated_devices ;;
  if returned : bool then ret tt
  else update_obj self (set_connected false) ;;; raise CouldNotFindKeyboard.

Definition connect (self : obj_ref) : Py bool :=
  try_except (open self ;;; ret true) is_CouldNotFindKeyboard (ret false).

Definition disconnect (self : obj_ref) : Py unit :=
  update_obj self (set_connected false) ;;;
  kb <- get_obj self ;;
  match qmk kb with
  | Some dev => Device_close dev
  | None => raise AttributeError
  end.

(** *** Sending *)

Definition write (self : obj_ref) (data_to_write : list Z) : Py Z :=
  kb <- get_obj self ;;
  if packet_size kb <? len data_to_write then raise DataPacketTooLarge
  else
    match qmk kb with
    | Some dev =>
      (* bytes(bytearray(data_to_write)), outside the try block *)
      if forallb is_byte data_to_write then
        try_except (Device_write dev data_to_write) is_HIDException
          (update_obj self (set_connected false) ;;;
           raise KeyboardDisconnected)
      else raise ValueError
    | None =>
      update_obj self (set_connected false) ;;;
      raise KeyboardDisconnected
    end.

Definition send_command (self : obj_ref) (command_type : Z)
    (command_data : option (list Z)) : Py Z :=
  let command_data :=
    match command_data with
    | None => [0]
    | Some d => d
    end in
  let data_packet := construct_command_packet command_type command_data in
  write self data_packet.

Definition read (self : obj_ref) (timeout length : Z) : Py (list Z) :=
  kb <- get_obj self ;;
  match qmk kb with
  | Some dev =>
    try_except (Device_read dev length timeout) is_HIDException
      (update_obj self (set_connected false) ;;;
       raise KeyboardDisconnected)
  | None =>
    update_obj self (set_connected false) ;;;
    raise KeyboardDisconnected
  end.

Definition send_current_fronter (self : obj_ref) (qmk_system_id : Z) : Py unit :=
  (* the log line evaluates SystemMembers(qmk_system_id).name *)
  match SystemMembers_of_value qmk_system_id with
  | None => raise ValueError
  | Some _ =>
    send_command self Commands.KB_Set_Fronter (Some [qmk_system_id]) ;;; ret tt
  end.

Definition send_activity_ping (self : obj_ref) : Py unit :=
  send_command self Commands.KB_Activity_Ping None ;;; ret tt.

(** *** LED fragmentation *)

(** The [for i, hsv_data in enumerate(led_values)] loop of [set_RGB_LEDs]:
    [rest] is what is left to enumerate and [i] the index of its head;
    [recurse] is the recursive call of the method. *)
Fixpoint set_RGB_LEDs_loop (recurse : list HSV -> Z -> Py unit)
    (self : obj_ref) (leds_per_command : Z) (led_values : list HSV)
    (first_led : Z) (i : nat) (rest : list HSV) (command_data : list Z)
  : Py unit :=
  match rest with
  | [] =>
    send_command self Commands.KB_Set_RGB_LEDs (Some command_data) ;;; ret tt
  | hsv_data :: rest' =>
    if leds_per_command <=? Z.of_nat i then
      send_command self Commands.KB_Set_RGB_LEDs (Some command_data) ;;;
      recurse (drop i led_values) (first_led + Z.of_nat i)
    else
      let data_piece :=
        [first_led + Z.of_nat i; Hue hsv_data; Sat hsv_data; Val hsv_data] in
      set_RGB_LEDs_loop recurse self leds_per_command led_values first_led
                        (S i) rest' (command_data ++ data_piece)
  end.

(** [set_RGB_LEDs]; [depth] is the recursion depth the interpreter still
    allows.  [math.floor((packet_size - 3) / 4)] is the floor division of
    [Z]. *)
Fixpoint set_RGB_LEDs (depth : nat) (self : obj_ref) (led_values : list HSV)
    (first_led : Z) : Py unit :=
  match depth with
  | O => raise RecursionError
  | S depth' =>
    kb <- get_obj self ;;
    let leds_per_command := (packet_size kb - 3) `div` 4 in
    set_RGB_LEDs_loop (set_RGB_LEDs depth' self) self leds_per_command
                      led_values first_led 0 led_values []
  end.

(** *** Receiving *)

Definition command_info (command_id : Z) (data : option Z) : pyval :=
  PyDict [("command"%string, Some command_id); ("data"%string, data)].

(** [if command_id in self.callbacks: self.callbacks[command_id](self, ...)] *)
Definition run_callback (self : obj_ref) (command_id : Z) (args : list pyval)
  : Py unit :=
  kb <- get_obj self ;;
  match callbacks kb !! command_id with
  | Some fn => invoke fn self args
  | None => ret tt
  end.

Definition parse_commands (self : obj_ref) : Py pyval :=
  r <- try_except (received_data <- read self 100 32 ;; ret (Some received_data))
                  is_KeyboardDisconnected (ret None) ;;
  match r with
  | None => ret PyNone                       (* no keyboard is connected *)
  | Some received_data =>
    if len received_data =? 0 then ret PyNone (* no data was received *)
    else if len received_data <? 3 then raise CorruptResponse
    else
      let command_id := nth 0 received_data 0 in
      let data_length := nth 1 received_data 0 in
      let command_data := drop 2 received_data in
      if command_id =? Commands.Do_Nothing then ret PyNone
      else if command_id =? Commands.PC_Raw_Debug_Msg then ret PyNone
      else if command_id =? Commands.PC_Debug_Msg then
        (* the log line evaluates bytes(command_data).decode() *)
        if utf8_valid command_data then ret PyNone
        else raise UnicodeDecodeError
      else if command_id =? Commands.PC_Switch_Fronter then
        let new_fronter_qmk_id := nth 0 command_data 0 in
        (* the log line evaluates SystemMembers(new_fronter_qmk_id) *)
        match SystemMembers_of_value new_fronter_qmk_id with
        | None => raise ValueError
        | Some _ =>
          let info := command_info command_id (Some new_fronter_qmk_id) in
          run_callback self command_id [PyInt new_fronter_qmk_id] ;;;
          ret info
        end
      else if command_id =? Commands.PC_Notify_Layer_Change then
        let command_data := take (Z.to_nat data_length) command_data in
        let layer_mask := int_from_bytes_little command_data in
        run_callback self command_id [PyInt layer_mask] ;;;
        ret (command_info command_id (Some layer_mask))
      else if command_id =? Commands.PC_Activity_Ping then
        let info := command_info command_id None in
        run_callback self command_id [] ;;;
        ret info
      else raise UnknownCommand
  end.

(** *** The polling loops ([QMKGear.py]; [QMK_Interface.py] has the same
    [poll_for_new_commands]) *)

(** The [for _keyboard in _keyboards] loop; [true] means the function
    returned from inside it. *)
Fixpoint poll_keyboards (pause : Py unit) (_keyboards : list obj_ref) : Py bool :=
  match _keyboards with
  | [] => ret false
  | _keyboard :: rest =>
    info <- parse_commands _keyboard ;;
    if py_eq_int info Commands.PC_Switch_Fronter then
      pause ;;; ret true
    else poll_keyboards pause rest
  end.

(** The [for i in range(20)] loop, [n] iterations left. *)
Fixpoint poll_rounds (n : nat) (_keyboards : list obj_ref) : Py unit :=
  match n with
  | O => ret tt
  | S n' =>
    returned <- poll_keyboards (sleep 500) _keyboards ;;
    if returned : bool then ret tt
    else sleep 500 ;;; poll_rounds n' _keyboards
  end.

Definition poll_for_new_commands (_keyboards : list obj_ref) : Py unit :=
  poll_rounds 20 _keyboards.

Definition poll_for_new_commands_fast (_keyboards : list obj_ref) : Py unit :=
  poll_keyboards (ret tt) _keyboards ;;; ret tt.

End Program.

(** ** Reference definitions and fixtures *)

(** The unsigned little-endian reading of the first [n] bytes of a buffer,
    written as the sum of [byte_i * 256^i]. *)
Fixpoint le_value (n : nat) (payload : list Z) : Z :=
  match n with
  | O => 0
  | S k => le_value k payload + nth k payload 0 * 256 ^ Z.of_nat k
  end.

(** The payload of one [KB_Set_RGB_LEDs] command for the LEDs [chunk] whose
    first LED has index [first_led]: one [index, H, S, V] tuple per LED. *)
Definition led_tuples (first_led : Z) (chunk : list HSV) : list Z :=
  concat (imap (fun i hsv => [first_led + Z.of_nat i; Hue hsv; Sat hsv; Val hsv])
               chunk).

(** The fragments of the specification: [leds] cut greedily into runs of
    [per_packet] LEDs, each tagged with the absolute index of its first LED.
    [fuel] bounds the number of cuts; the length of [leds] is always
    enough. *)
Fixpoint led_fragments (fuel per_packet : nat) (leds : list HSV) (first_led : Z)
  : list (Z * list HSV) :=
  match fuel with
  | O => [(first_led, leds)]
  | S fuel' =>
    if decide (length leds <= per_packet)%nat then [(first_led, leds)]
    else (first_led, take per_packet leds)
         :: led_fragments fuel' per_packet (drop per_packet leds)
                          (first_led + Z.of_nat per_packet)
  end.

(** Sending a list of payloads in order with [send_command], stopping at the
    first one that raises. *)
Fixpoint send_each (hid : HidApi) (self : obj_ref) (command_type : Z)
    (payloads : list (list Z)) : Py unit :=
  match payloads with
  | [] => ret tt
  | p :: rest =>
    send_command hid self command_type (Some p) ;;;
    send_each hid self command_type rest
  end.

Definition is_write (e : Event) : bool :=
  match e with HidWrite _ _ => true | _ => false end.
Definition is_read (e : Event) : bool :=
  match e with HidRead _ _ _ => true | _ => false end.
Definition count_events (f : Event -> bool) (tr : list Event) : nat :=
  length (List.filter f tr).

(** A transport that follows a script: the k-th write succeeds when the k-th
    entry of [write_ok] says so (and when the script is exhausted), the k-th
    read answers with the k-th entry of [inbox] ([None] raises, an exhausted
    script answers with the empty buffer). *)
Definition scripted_hid (write_ok : list bool) (inbox : list (option (list Z)))
  : HidApi :=
  mkHidApi (fun _ => [])
           (fun _ path => Some path)
           (fun tr _ data =>
              if nth (count_events is_write tr) write_ok true
              then Some (len data) else None)
           (fun tr _ _ _ => nth (count_events is_read tr) inbox (Some [])).

(** The same transport with [devices] plugged in. *)
Definition with_devices (devices : list HidItem) (hid : HidApi) : HidApi :=
  mkHidApi (fun _ => devices) (hid_Device hid) (hid_write hid) (hid_read hid).

(** The raw HID endpoint of a Lily58, reachable at path 0. *)
Definition lily_endpoint : HidItem :=
  mkHidItem 0x04D8 0xEB2D 0xFF60 0x61 (Some 0%nat).

Definition no_effect : fn_ref -> obj_ref -> list pyval -> Py unit :=
  fun _ _ _ => ret tt.

(** A Lily58 as [__init__] leaves it, and as a successful [open] leaves it. *)
Definition lily : QMKKeyboard :=
  mkKeyboard LILY58 0x04D8 0xEB2D 32 0xFF60 0x61 None false ∅.
Definition lily_open (dev : hid_device) : QMKKeyboard :=
  set_connected true (set_qmk (Some dev) lily).

Definition world_of (kb : QMKKeyboard) : World := mkWorld (fun _ => kb) [].

(** Every reference [r] is an open Lily58 on its own device [r]. *)
Definition open_keyboards : World := mkWorld (fun r => lily_open r) [].

Definition ping_packet : list Z := [0; 4; 1; 0].

(** The world after the read [parse_commands] starts with: same heap, one
    more traced call. *)
Definition after_read (w : World) (dev : hid_device) : World :=
  mkWorld (heap w) (trace w ++ [HidRead dev 32 100]).

Definition rainbow (n : nat) : list HSV :=
  map (fun i => mkHSV (2 * Z.of_nat i) 255 255) (seq 0 n).

(** ** More of [QMK_Interface.py] *)

(** [QMKKeyboard.__eq__] against another [QMKKeyboard] (anything else
    compares unequal): vendor and product id decide. *)
Definition QMKKeyboard_eq (self other : QMKKeyboard) : bool :=
  (vendor_id self =? vendor_id other) && (product_id self =? product_id other).

(** [overflow_int8] *)
Definition overflow_int8 (uint8 : Z) : Z :=
  if 255 <? uint8 then uint8 - 255 else uint8.

(** The exceptions of Python and of [utils/pluralKit.py] that the modelled
    code can raise besides those of [QMK_Interface.py]. *)
Definition KeyError : exn := OtherException "KeyError".
Definition TypeError : exn := OtherException "TypeError".
Definition JSONDecodeError : exn := OtherException "JSONDecodeError".
Definition NotFound : exn := OtherException "NotFound".
Definition Unauthorized : exn := OtherException "Unauthorized".
Definition MembersAlreadyFronting : exn := OtherException "MembersAlreadyFronting".

Definition is_MembersAlreadyFronting (e : exn) : bool :=
  match e with
  | OtherException name => String.eqb name "MembersAlreadyFronting"
  | _ => false
  end.

(** ** [utils/pluralKit.py]: logging a switch *)

Module pluralKit.

Definition base_url : string := "https://api.pluralkit.me/v1".

(** What the program looks at in a [requests] response: the status code and
    the decoded body ([None] when [resp.json()] raises). *)
Record Response (Json : Type) := mkResponse {
  status_code : Z;
  json : option Json
}.
Arguments mkResponse {Json} status_code json.
Arguments status_code {Json} r.
Arguments json {Json} r.

(** What [api_post] returns: [True] or the decoded body. *)
Inductive PostResult (Json : Type) :=
| PostTrue
| PostJson (body : Json).
Arguments PostTrue {Json}.
Arguments PostJson {Json} body.

Section Web.

(** Decoded JSON values, and the web service, are outside the program: the
    service answers a POST of [{'members': payload}] as a function of what
    happened so far, the URL, the payload and the headers. *)
Variable Json : Type.
Variable requests_post :
  list Event -> string -> list string -> option string
  -> outcome (Response Json).

(** [headers = {'Authorization': authorization}] when [authorization] is
    truthy, [None] otherwise. *)
Definition headers_of (authorization : option string) : option string :=
  match authorization with
  | Some a => if String.eqb a "" then None else Some a
  | None => None
  end.

Definition api_post (url : string) (payload : list string)
    (authorization : option string) : Py (PostResult Json) :=
  let headers := headers_of authorization in
  fun w =>
    match requests_post (trace w) (base_url ++ url)%string payload headers with
    | Raise e => (Raise e, w)
    | Ok resp =>
      if status_code resp =? 404 then (Raise NotFound, w)
      else if status_code resp =? 401 then (Raise Unauthorized, w)
      else if status_code resp =? 400 then (Raise MembersAlreadyFronting, w)
      else if status_code resp =? 204 then (Ok PostTrue, w)
      else
        match json resp with
        | Some body => (Ok (PostJson body), w)
        | None => (Raise JSONDecodeError, w)
        end
    end.

(** [System.set_fronters]; of the [System] object only [api_token] is read. *)
Definition set_fronters (api_token : option string)
    (members : option (list string)) : Py (PostResult Json) :=
  let payload :=
    match members with
    | None | Some [] => []
    | Some members => members
    end in
  api_post "/s/switches" payload api_token.

End Web.

End pluralKit.

(** ** [QMKGear.py] *)

Module QMKGear.

(** [@dataclass class SystemMemberMap] *)
Record SystemMemberMap := mkSystemMemberMap {
  name : string;
  pk_id : string;
  qmk_id : Z
}.

(** [class AmadeaSystemMap] *)
Record AmadeaSystemMap := mkAmadeaSystemMap {
  system_id : string;
  members : list SystemMemberMap
}.

(** The [for member in self.members] loops of the three lookups. *)
Fixpoint get_qmkid_by_pkid_loop (members : list SystemMemberMap) (pk_id' : string)
  : outcome Z :=
  match members with
  | [] => Raise KeyError
  | member :: rest =>
    if String.eqb (pk_id member) pk_id' then Ok (qmk_id member)
    else get_qmkid_by_pkid_loop rest pk_id'
  end.

Fixpoint get_pkid_by_qmkid_loop (members : list SystemMemberMap) (qmk_id' : Z)
  : outcome string :=
  match members with
  | [] => Raise KeyError
  | member :: rest =>
    if qmk_id member =? qmk_id' then Ok (pk_id member)
    else get_pkid_by_qmkid_loop rest qmk_id'
  end.

Fixpoint get_member_by_qmkid_loop (members : list SystemMemberMap) (qmk_id' : Z)
  : option SystemMemberMap :=
  match members with
  | [] => None
  | member :: rest =>
    if qmk_id member =? qmk_id' then Some member
    else get_member_by_qmkid_loop rest qmk_id'
  end.

Definition get_qmkid_by_pkid (self : AmadeaSystemMap) (pk_id : string)
  : outcome Z :=
  get_qmkid_by_pkid_loop (members self) pk_id.

Definition get_pkid_by_qmkid (self : AmadeaSystemMap) (qmk_id : Z)
  : outcome string :=
  get_pkid_by_qmkid_loop (members self) qmk_id.

Definition get_member_by_qmkid (self : AmadeaSystemMap) (qmk_id : Z)
  : option SystemMemberMap :=
  get_member_by_qmkid_loop (members self) qmk_id.

Section Handlers.

Variable hid : HidApi.
Variable Json : Type.
(** The truth value of a decoded body, as [if status:] tests it. *)
Variable truthy : Json -> bool.
Variable requests_post :
  list Event -> string -> list string -> option string
  -> outcome (pluralKit.Response Json).

(** The module globals the handlers read: [amadea_system_map] ([None] until
    the main block sets it), the token of [pk_amadea], and [keyboards]. *)
Variable amadea_system_map : option AmadeaSystemMap.
Variable pk_token : option string.
Variable keyboards : list obj_ref.

(** [handle_layer_change] only prints. *)
Definition handle_layer_change (qmk : obj_ref) (layer_state : Z) : Py unit :=
  ret tt.

(** [handle_switch_fronter]; the toasts and prints leave no trace. *)
Definition handle_switch_fronter (qmk : obj_ref) (qmk_member_id : Z) : Py unit :=
  match amadea_system_map with
  | None => raise AttributeError
  | Some system_map =>
    let member := get_member_by_qmkid system_map qmk_member_id in
    status <- try_except
                (match member with
                 | None => raise AttributeError       (* member.pk_id *)
                 | Some m =>
                   r <- pluralKit.set_fronters Json requests_post pk_token
                          (Some [pk_id m]) ;;
                   ret (match r with
                        | pluralKit.PostTrue => true
                        | pluralKit.PostJson body => truthy body
                        end)
                 end)
                is_MembersAlreadyFronting
                (ret false) ;;
    if status : bool then ret tt else ret tt
  end.

(** The [for _keyboard in keyboards] loop of [handle_activity_ping]. *)
Fixpoint handle_activity_ping_loop (pinging_qmk : obj_ref)
    (_keyboards : list obj_ref) : Py unit :=
  match _keyboards with
  | [] => ret tt
  | _keyboard :: rest =>
    this <- get_obj _keyboard ;;
    pinging <- get_obj pinging_qmk ;;
    (if negb (QMKKeyboard_eq this pinging) then
       try_except (send_activity_ping hid _keyboard)
                  is_KeyboardDisconnected (ret tt)
     else ret tt) ;;;
    handle_activity_ping_loop pinging_qmk rest
  end.

Definition handle_activity_ping (pinging_qmk : obj_ref) : Py unit :=
  handle_activity_ping_loop pinging_qmk keyboards.

(** The method [QMKKeyboard.send_current_fronter], which the function of the
    same name below calls. *)
Local Abbreviation method_send_current_fronter := send_current_fronter
  (only parsing).

(** [send_current_fronter(_keyboards)], with the global [fronters_qmk_id]
    it reads as an argument. *)
Fixpoint send_current_fronter (fronters_qmk_id : Z) (_keyboards : list obj_ref)
  : Py unit :=
  match _keyboards with
  | [] => ret tt
  | _keyboard :: rest =>
    try_except (method_send_current_fronter hid _keyboard fronters_qmk_id)
               is_KeyboardDisconnected (ret tt) ;;;
    send_current_fronter fronters_qmk_id rest
  end.

(** The three functions of [command_callbacks], as references, and what
    calling each with the arguments [parse_commands] passes does. *)
Definition fn_handle_layer_change : fn_ref := 0%nat.
Definition fn_handle_switch_fronter : fn_ref := 1%nat.
Definition fn_handle_activity_ping : fn_ref := 2%nat.

Definition command_callbacks : gmap Z fn_ref :=
  {[ Commands.PC_Notify_Layer_Change := fn_handle_layer_change;
     Commands.PC_Switch_Fronter := fn_handle_switch_fronter;
     Commands.PC_Activity_Ping := fn_handle_activity_ping ]}.

Definition call_function (fn : fn_ref) (self : obj_ref) (args : list pyval)
  : Py unit :=
  match fn, args with
  | 0%nat, [PyInt layer_state] => handle_layer_change self layer_state
  | 1%nat, [PyInt qmk_member_id] => handle_switch_fronter self qmk_member_id
  | 2%nat, [] => handle_activity_ping self
  | _, _ => raise TypeError
  end.

End Handlers.

End QMKGear.

(** ** Reference definitions and fixtures for the rest of the code *)

(** The fields of a keyboard that no method assigns after construction. *)
Definition static_fields (kb : QMKKeyboard)
  : string * Z * Z * Z * Z * Z * gmap Z fn_ref :=
  (keyboard_type kb, vendor_id kb, product_id kb, packet_size kb,
   usage_page kb, usage kb, callbacks kb).

(** A computation that leaves every keyboard's static fields alone and only
    appends to the trace. *)
Definition well_behaved {A} (c : Py A) : Prop :=
  forall w,
    (forall other, static_fields (heap (snd (c w)) other)
                   = static_fields (heap w other))
    /\ exists events, trace (snd (c w)) = trace w ++ events.

(** Whether [open] takes an enumerated endpoint for the keyboard. *)
Definition endpoint_matches (kb : QMKKeyboard) (hid_item : HidItem) : bool :=
  (vendor_id kb =? item_vendor_id hid_item)
  && (product_id kb =? item_product_id hid_item)
  && (usage_page kb =? item_usage_page hid_item)
  && (usage kb =? item_usage hid_item)
  && bool_decide (is_Some (item_path hid_item)).

(** The keyboard marked disconnected, everything else as it is. *)
Definition mark_disconnected (self : obj_ref) (w : World) (tr : list Event)
  : World :=
  mkWorld (<[self := set_connected false (heap w self)]> (heap w)) tr.

(** Polling the keyboards one after the other, stopping only at a raise. *)
Fixpoint parse_each (hid : HidApi)
    (call_function : fn_ref -> obj_ref -> list pyval -> Py unit)
    (_keyboards : list obj_ref) : Py unit :=
  match _keyboards with
  | [] => ret tt
  | _keyboard :: rest =>
    parse_commands hid call_function _keyboard ;;;
    parse_each hid call_function rest
  end.

Definition navi : QMKKeyboard :=
  mkKeyboard NAVI10 0xFEED 0x0000 32 0xFF60 0x61 None false ∅.
Definition navi_open (dev : hid_device) : QMKKeyboard :=
  set_connected true (set_qmk (Some dev) navi).

(** Keyboard 0 is an open Lily58 on device 0, every other reference an open
    Navi10 on its own device. *)
Definition lily_and_navis : World :=
  mkWorld (fun r => match r with O => lily_open 0%nat | _ => navi_open r end) [].

(** A system map with the three members of [SystemMembers]. *)
Definition sample_map : QMKGear.AmadeaSystemMap :=
  QMKGear.mkAmadeaSystemMap "amadea"
    [QMKGear.mkSystemMemberMap "Fluttershy" "flutt" 1;
     QMKGear.mkSystemMemberMap "Hibiki" "hibik" 2;
     QMKGear.mkSystemMemberMap "Luna" "lunaa" 3].

(** A web service that answers every request with the same status code and
    no body. *)
Definition answers (code : Z)
  : list Event -> string -> list string -> option string
    -> outcome (pluralKit.Response unit) :=
  fun _ _ _ _ => Ok (pluralKit.mkResponse code None).

(** ** Basic facts about the embedding *)

Ltac py_unfold :=
  unfold bind, ret, raise, get_obj, update_obj, emit, try_except in *.

Lemma init_lily : QMKKeyboard_init LILY58 None = Ok lily.
Proof. reflexivity. Qed.

(** Every keyboard the constructor accepts has 32-byte packets, seven LEDs
    per command. *)
Lemma init_packet_size keyboard_type callbacks kb :
  QMKKeyboard_init keyboard_type callbacks = Ok kb ->
  packet_size kb = 32 /\ (packet_size kb - 3) `div` 4 = 7.
Proof.
  unfold QMKKeyboard_init.
  destruct (String.eqb keyboard_type LILY58);
    [|destruct (String.eqb keyboard_type NAVI10); [|discriminate]];
    intros [= <-]; split; reflexivity.
Qed.

(** [connect] on a Lily58 that is plugged in, and on one that is not. *)
Lemma connect_plugged_in :
  let hid := with_devices [lily_endpoint] (scripted_hid [] []) in
  fst (connect hid 0%nat (world_of lily)) = Ok true
  /\ heap (snd (connect hid 0%nat (world_of lily))) 0%nat = lily_open 0%nat.
Proof. vm_compute. split; reflexivity. Qed.

Lemma connect_unplugged :
  let hid := scripted_hid [] [] in
  fst (connect hid 0%nat (world_of lily)) = Ok false
  /\ connected (heap (snd (connect hid 0%nat (world_of lily))) 0%nat) = false.
Proof. vm_compute. split; reflexivity. Qed.

Lemma len_nonneg {A} (l : list A) : 0 <= len l.
Proof. unfold len. lia. Qed.

Lemma len_cons {A} (x : A) (l : list A) : len (x :: l) = 1 + len l.
Proof. unfold len. cbn [length]. lia. Qed.

Lemma len_app {A} (l k : list A) : len (l ++ k) = len l + len k.
Proof. unfold len. rewrite length_app. lia. Qed.

Lemma len_packet c d : len (construct_command_packet c d) = 3 + len d.
Proof. unfold construct_command_packet. rewrite len_app. reflexivity. Qed.

Section Facts.

Variable hid : HidApi.
Variable call_function : fn_ref -> obj_ref -> list pyval -> Py unit.

(** [write], branch by branch. *)
Lemma write_too_large self data w :
  packet_size (heap w self) < len data ->
  write hid self data w = (Raise DataPacketTooLarge, w).
Proof.
  intros H. unfold write. py_unfold.
  apply Z.ltb_lt in H. rewrite H. reflexivity.
Qed.

Lemma write_fits self data w :
  len data <= packet_size (heap w self) ->
  write hid self data w =
    match qmk (heap w self) with
    | Some dev =>
      if forallb is_byte data then
        let tr := trace w ++ [HidWrite dev data] in
        match hid_write hid (trace w) dev data with
        | Some n => (Ok n, mkWorld (heap w) tr)
        | None =>
          (Raise KeyboardDisconnected,
           mkWorld (<[self := set_connected false (heap w self)]> (heap w)) tr)
        end
      else (Raise ValueError, w)
    | None =>
      (Raise KeyboardDisconnected,
       mkWorld (<[self := set_connected false (heap w self)]> (heap w)) (trace w))
    end.
Proof.
  intros H. unfold write. py_unfold.
  apply Z.ltb_ge in H. rewrite H.
  destruct (qmk (heap w self)) as [dev|]; [|reflexivity].
  destruct (forallb is_byte data); [|reflexivity].
  unfold Device_write.
  destruct (hid_write hid (trace w) dev data); reflexivity.
Qed.

(** [write] never changes a keyboard's packet size, whatever happens. *)
Lemma write_packet_size self data w other :
  packet_size (heap (snd (write hid self data w)) other)
  = packet_size (heap w other).
Proof.
  destruct (Z.lt_ge_cases (packet_size (heap w self)) (len data)) as [H|H].
  - rewrite write_too_large by exact H. reflexivity.
  - rewrite write_fits by exact H.
    assert (Hupd : packet_size
              (<[self := set_connected false (heap w self)]> (heap w) other)
            = packet_size (heap w other)).
    { destruct (decide (self = other)) as [->|Hne].
      - rewrite fn_lookup_insert. reflexivity.
      - rewrite fn_lookup_insert_ne by exact Hne. reflexivity. }
    destruct (qmk (heap w self)) as [dev|]; [|exact Hupd].
    destruct (forallb is_byte data); [|reflexivity].
    destruct (hid_write hid (trace w) dev data); [reflexivity|exact Hupd].
Qed.

Lemma read_with_device self timeout length w dev :
  qmk (heap w self) = Some dev ->
  read hid self timeout length w =
    let tr := trace w ++ [HidRead dev length timeout] in
    match hid_read hid (trace w) dev length timeout with
    | Some data => (Ok data, mkWorld (heap w) tr)
    | None =>
      (Raise KeyboardDisconnected,
       mkWorld (<[self := set_connected false (heap w self)]> (heap w)) tr)
    end.
Proof.
  intros H. unfold read. py_unfold. rewrite H. unfold Device_read.
  destruct (hid_read hid (trace w) dev length timeout); reflexivity.
Qed.

End Facts.

(** ** The send path *)

Section SendPath.

Variable hid : HidApi.

(** C4.  For every command and payload, [send_command] raises
    [DataPacketTooLarge] exactly when [3 + len(payload)] exceeds the
    keyboard's [packet_size]; in that case the world it leaves is the world
    it started from: nothing was handed to the transport and no field
    changed. *)
Theorem send_command_size_guard self command_type payload w :
  (fst (send_command hid self command_type (Some payload) w)
     = Raise DataPacketTooLarge
   <-> packet_size (heap w self) < 3 + len payload)
  /\ (fst (send_command hid self command_type (Some payload) w)
        = Raise DataPacketTooLarge
      -> snd (send_command hid self command_type (Some payload) w) = w).
Proof.
  unfold send_command.
  pose proof (len_packet command_type payload) as Hlen.
  set (packet := construct_command_packet command_type payload) in *.
  destruct (Z.lt_ge_cases (packet_size (heap w self)) (len packet)) as [H|H].
  - rewrite write_too_large by exact H. cbn [fst snd].
    split; [split; [intros _; lia | reflexivity] | reflexivity].
  - rewrite write_fits by exact H.
    assert (Hno : forall r : outcome Z * World,
               (fst r = Raise DataPacketTooLarge -> False) ->
               (fst r = Raise DataPacketTooLarge
                <-> packet_size (heap w self) < 3 + len payload)
               /\ (fst r = Raise DataPacketTooLarge -> snd r = w)).
    { intros r Hr. split; [split; [intros E; destruct (Hr E) | lia]
                          | intros E; destruct (Hr E)]. }
    apply Hno.
    destruct (qmk (heap w self)) as [dev|]; [|discriminate].
    destruct (forallb is_byte packet); [|discriminate].
    cbn zeta. destruct (hid_write hid (trace w) dev packet); discriminate.
Qed.

(** C3, as the code has it.  [write] consults the device handle, not the
    [connected] flag: on a keyboard that holds no handle ([qmk is None]) it
    never reaches the transport, the trace is unchanged, and it raises
    [KeyboardDisconnected] (after marking the keyboard disconnected) unless
    the packet is over the packet size, which is reported first. *)
Theorem write_without_device self data w :
  qmk (heap w self) = None ->
  write hid self data w =
    if packet_size (heap w self) <? len data
    then (Raise DataPacketTooLarge, w)
    else (Raise KeyboardDisconnected,
          mkWorld (<[self := set_connected false (heap w self)]> (heap w))
                  (trace w)).
Proof.
  intros Hq.
  destruct (Z.ltb_spec (packet_size (heap w self)) (len data)) as [H|H].
  - apply write_too_large. exact H.
  - rewrite write_fits by exact H. rewrite Hq. reflexivity.
Qed.

(** C8.  On a keyboard that holds a device handle, a [hid.HIDException]
    from the transport's write or read surfaces as [KeyboardDisconnected],
    and the world left behind differs from the one before only in the
    traced call and in [connected], which is now false. *)
Theorem hid_failure_disconnects self dev w :
  qmk (heap w self) = Some dev ->
  (forall data,
      len data <= packet_size (heap w self) ->
      forallb is_byte data = true ->
      hid_write hid (trace w) dev data = None ->
      let w' := snd (write hid self data w) in
      fst (write hid self data w) = Raise KeyboardDisconnected
      /\ connected (heap w' self) = false
      /\ w' = mkWorld (<[self := set_connected false (heap w self)]> (heap w))
                      (trace w ++ [HidWrite dev data]))
  /\ (forall timeout length,
      hid_read hid (trace w) dev length timeout = None ->
      let w' := snd (read hid self timeout length w) in
      fst (read hid self timeout length w) = Raise KeyboardDisconnected
      /\ connected (heap w' self) = false
      /\ w' = mkWorld (<[self := set_connected false (heap w self)]> (heap w))
                      (trace w ++ [HidRead dev length timeout])).
Proof.
  intros Hq. split.
  - intros data Hfit Hbytes Hfail. cbn zeta.
    rewrite write_fits by exact Hfit. rewrite Hq, Hbytes. cbn zeta.
    rewrite Hfail. cbn [fst snd heap].
    rewrite fn_lookup_insert. repeat split.
  - intros timeout length Hfail. cbn zeta.
    rewrite (read_with_device hid self timeout length w dev Hq). cbn zeta.
    rewrite Hfail. cbn [fst snd heap].
    rewrite fn_lookup_insert. repeat split.
Qed.

(** C9.  A [None] payload goes out as the one-byte payload [[0]]: the
    packet written is [[0, command, 1, 0]], and the only transport call
    [send_activity_ping] can make is the write of [[0, 4, 1, 0]]. *)
Theorem none_payload_is_one_zero_byte self w :
  (forall command_type,
      send_command hid self command_type None w
      = write hid self [0; command_type; 1; 0] w)
  /\ send_activity_ping hid self w
     = (write hid self [0; 4; 1; 0] ;;; ret tt) w
  /\ (trace (snd (send_activity_ping hid self w)) = trace w
      \/ exists dev,
           trace (snd (send_activity_ping hid self w))
           = trace w ++ [HidWrite dev [0; 4; 1; 0]]).
Proof.
  split; [reflexivity|]. split; [reflexivity|].
  unfold send_activity_ping, send_command, bind.
  change (construct_command_packet Commands.KB_Activity_Ping [0])
    with [0; 4; 1; 0].
  destruct (Z.lt_ge_cases (packet_size (heap w self)) (len [0; 4; 1; 0]))
    as [H|H].
  - rewrite write_too_large by exact H. left. reflexivity.
  - rewrite write_fits by exact H.
    destruct (qmk (heap w self)) as [dev|]; [|left; reflexivity].
    cbn [forallb is_byte]. cbn zeta.
    destruct (hid_write hid (trace w) dev [0; 4; 1; 0]);
      right; exists dev; reflexivity.
Qed.

End SendPath.

(** The size guard at work on a Lily58: 30 payload bytes do not fit in a
    32-byte packet. *)
Lemma send_command_size_guard_witness :
  send_command (scripted_hid [] []) 0%nat 3 (Some (replicate 30 7))
               (world_of (lily_open 0%nat))
  = (Raise DataPacketTooLarge, world_of (lily_open 0%nat)).
Proof.
  pose proof (send_command_size_guard (scripted_hid [] []) 0%nat 3
                (replicate 30 7) (world_of (lily_open 0%nat))) as [[_ Hr] Hw].
  assert (E : packet_size (heap (world_of (lily_open 0%nat)) 0%nat)
              < 3 + len (replicate 30 7)) by (vm_compute; reflexivity).
  specialize (Hr E). specialize (Hw Hr).
  destruct (send_command (scripted_hid [] []) 0%nat 3 (Some (replicate 30 7))
              (world_of (lily_open 0%nat))) as [r w'].
  cbn [fst snd] in Hr, Hw. rewrite Hr, Hw. reflexivity.
Defined.

(** A keyboard that was never opened: the ping is refused without a call to
    the transport. *)
Lemma write_without_device_witness :
  qmk (heap (world_of lily) 0%nat) = None
  /\ fst (write (scripted_hid [] []) 0%nat ping_packet (world_of lily))
     = Raise KeyboardDisconnected
  /\ trace (snd (write (scripted_hid [] []) 0%nat ping_packet (world_of lily)))
     = [].
Proof.
  split; [reflexivity|].
  rewrite (write_without_device (scripted_hid [] []) 0%nat ping_packet
             (world_of lily) eq_refl).
  split; reflexivity.
Defined.

(** C3 as stated fails.  A Lily58 is constructed and connected; its first
    write fails, which marks it disconnected but leaves it the handle; the
    next write, made while [connected] is false, is handed to the transport
    again. *)
Lemma write_while_disconnected_reaches_transport :
  let hid := with_devices [lily_endpoint] (scripted_hid [false; false] []) in
  let w1 := snd (connect hid 0%nat (world_of lily)) in
  let w2 := snd (write hid 0%nat ping_packet w1) in
  fst (connect hid 0%nat (world_of lily)) = Ok true
  /\ fst (write hid 0%nat ping_packet w1) = Raise KeyboardDisconnected
  /\ connected (heap w2 0%nat) = false
  /\ trace w2 = [HidEnumerate; HidOpen 0%nat; HidWrite 0%nat ping_packet]
  /\ trace (snd (write hid 0%nat ping_packet w2))
     = [HidEnumerate; HidOpen 0%nat; HidWrite 0%nat ping_packet;
        HidWrite 0%nat ping_packet].
Proof. vm_compute. repeat split. Qed.

(** A write and a read that fail on an open Lily58. *)
Lemma hid_failure_disconnects_witness :
  let hid := scripted_hid [false] [None] in
  let w := world_of (lily_open 0%nat) in
  (fst (write hid 0%nat ping_packet w) = Raise KeyboardDisconnected
   /\ connected (heap (snd (write hid 0%nat ping_packet w)) 0%nat) = false)
  /\ (fst (read hid 0%nat 100 32 w) = Raise KeyboardDisconnected
      /\ connected (heap (snd (read hid 0%nat 100 32 w)) 0%nat) = false).
Proof.
  cbn zeta.
  destruct (hid_failure_disconnects (scripted_hid [false] [None]) 0%nat 0%nat
              (world_of (lily_open 0%nat)) eq_refl) as [Hw Hr].
  split.
  - destruct (Hw ping_packet) as (H1 & H2 & _);
      [vm_compute; discriminate | reflexivity | reflexivity |].
    split; assumption.
  - destruct (Hr 100 32) as (H1 & H2 & _); [reflexivity|].
    split; assumption.
Defined.

(** ** The receive path *)

Lemma SystemMembers_of_value_None v :
  SystemMembers_of_value v = None <-> ~ (0 <= v <= 3).
Proof.
  unfold SystemMembers_of_value.
  destruct (Z.eqb_spec v 0); [split; [discriminate | lia]|].
  destruct (Z.eqb_spec v 1); [split; [discriminate | lia]|].
  destruct (Z.eqb_spec v 2); [split; [discriminate | lia]|].
  destruct (Z.eqb_spec v 3); [split; [discriminate | lia]|].
  split; [lia | reflexivity].
Qed.

Lemma SystemMembers_of_value_Some v :
  0 <= v <= 3 -> exists m, SystemMembers_of_value v = Some m.
Proof.
  intros H. destruct (SystemMembers_of_value v) as [m|] eqn:E; [eauto|].
  apply SystemMembers_of_value_None in E. contradiction.
Qed.

Lemma int_from_bytes_little_snoc k : forall payload,
  int_from_bytes_little (take (S k) payload)
  = int_from_bytes_little (take k payload) + nth k payload 0 * 256 ^ Z.of_nat k.
Proof.
  induction k as [|k IH]; intros [|b t].
  - reflexivity.
  - cbn [take int_from_bytes_little nth]. rewrite take_0. cbn. lia.
  - cbn [take int_from_bytes_little nth]. lia.
  - change (take (S (S k)) (b :: t)) with (b :: take (S k) t).
    cbn [take int_from_bytes_little nth].
    rewrite IH. rewrite Nat2Z.inj_succ, Z.pow_succ_r by lia. ring.
Qed.

Lemma int_from_bytes_little_take n payload :
  int_from_bytes_little (take n payload) = le_value n payload.
Proof.
  induction n as [|n IH]; [destruct payload; reflexivity|].
  rewrite int_from_bytes_little_snoc, IH. reflexivity.
Qed.

Lemma le_value_bounds n payload :
  Forall (fun b => 0 <= b < 256) payload ->
  0 <= le_value n payload < 256 ^ Z.of_nat n.
Proof.
  intros Hb. induction n as [|n IH]; cbn [le_value]; [lia|].
  assert (Hn : 0 <= nth n payload 0 < 256).
  { destruct (nth_in_or_default n payload 0) as [Hin | ->]; [|lia].
    rewrite List.Forall_forall in Hb. apply Hb, Hin. }
  rewrite Nat2Z.inj_succ, Z.pow_succ_r by lia.
  nia.
Qed.

Section ReceivePath.

Variable hid : HidApi.
Variable call_function : fn_ref -> obj_ref -> list pyval -> Py unit.

Lemma bind_Ok {A B} (c : Py A) (k : A -> Py B) w a w' :
  c w = (Ok a, w') -> bind c k w = k a w'.
Proof. intros H. unfold bind. rewrite H. reflexivity. Qed.

Lemma try_read_received self w dev data :
  qmk (heap w self) = Some dev ->
  hid_read hid (trace w) dev 32 100 = Some data ->
  try_except (received_data <- read hid self 100 32 ;; ret (Some received_data))
             is_KeyboardDisconnected (ret None) w
  = (Ok (Some data), after_read w dev).
Proof.
  intros Hq Hr. unfold try_except, bind.
  rewrite (read_with_device hid self 100 32 w dev Hq). cbn zeta.
  rewrite Hr. reflexivity.
Qed.

Ltac parse_after_read Hq Hr :=
  unfold parse_commands;
  rewrite (bind_Ok _ _ _ _ _ (try_read_received _ _ _ _ Hq Hr));
  cbn beta iota.

(** C7.  When the read hands back an empty buffer, [parse_commands]
    returns [None] without raising; when it hands back one or two bytes,
    [parse_commands] raises [CorruptResponse].  Either way the heap, and
    with it the keyboard's [connected] flag, is what it was. *)
Theorem parse_commands_length_guards self dev w data :
  qmk (heap w self) = Some dev ->
  hid_read hid (trace w) dev 32 100 = Some data ->
  (len data = 0 ->
     parse_commands hid call_function self w = (Ok PyNone, after_read w dev))
  /\ (0 < len data < 3 ->
     parse_commands hid call_function self w
     = (Raise CorruptResponse, after_read w dev))
  /\ heap (after_read w dev) = heap w.
Proof.
  intros Hq Hr. repeat split.
  - intros H0. parse_after_read Hq Hr. rewrite H0. reflexivity.
  - intros H12. parse_after_read Hq Hr.
    destruct (Z.eqb_spec (len data) 0); [lia|].
    destruct (Z.ltb_spec (len data) 3); [reflexivity | lia].
Qed.

(** C6.  A received packet [[123, n, payload...]] decodes to the layer
    mask that is the unsigned little-endian value of the first [n] payload
    bytes, the sum of [payload[i] * 256^i] for [i < n], whatever [n] is:
    that value is passed to the callback registered for 123, if any, and
    returned as the event's data.  For byte payloads it lies in
    [0, 256^n). *)
Theorem layer_change_little_endian self dev w n payload :
  qmk (heap w self) = Some dev ->
  hid_read hid (trace w) dev 32 100 = Some (123 :: n :: payload) ->
  payload <> [] ->
  let mask := le_value (Z.to_nat n) payload in
  parse_commands hid call_function self w
  = (run_callback call_function self 123 [PyInt mask] ;;;
     ret (command_info 123 (Some mask))) (after_read w dev)
  /\ (callbacks (heap w self) !! 123 = None ->
      parse_commands hid call_function self w
      = (Ok (command_info 123 (Some mask)), after_read w dev))
  /\ (0 <= n -> Forall (fun b => 0 <= b < 256) payload ->
      0 <= mask < 256 ^ n).
Proof.
  intros Hq Hr Hne mask.
  assert (Hparse : parse_commands hid call_function self w
    = (run_callback call_function self 123 [PyInt mask] ;;;
       ret (command_info 123 (Some mask))) (after_read w dev)).
  { parse_after_read Hq Hr.
    assert (Hlen : 3 <= len (123 :: n :: payload)).
    { rewrite !len_cons. destruct payload; [congruence|].
      rewrite len_cons. pose proof (len_nonneg payload). lia. }
    destruct (Z.eqb_spec (len (123 :: n :: payload)) 0); [lia|].
    destruct (Z.ltb_spec (len (123 :: n :: payload)) 3); [lia|].
    cbn [nth drop]. change (123 =? Commands.Do_Nothing) with false.
    change (123 =? Commands.PC_Raw_Debug_Msg) with false.
    change (123 =? Commands.PC_Debug_Msg) with false.
    change (123 =? Commands.PC_Switch_Fronter) with false.
    change (123 =? Commands.PC_Notify_Layer_Change) with true.
    cbn beta iota zeta. rewrite int_from_bytes_little_take. reflexivity. }
  split; [exact Hparse|]. split.
  - intros Hcb. rewrite Hparse.
    unfold run_callback. py_unfold. cbn [heap after_read].
    rewrite Hcb. reflexivity.
  - intros Hn Hb. pose proof (le_value_bounds (Z.to_nat n) payload Hb) as H.
    rewrite Z2Nat.id in H by exact Hn. exact H.
Qed.

(** C10.  A received packet [[122, n, member, ...]] whose member id is not
    one of 0, 1, 2, 3 makes [parse_commands] raise [ValueError] in the
    world right after the read: no callback was called.  With a member id
    in range the callback registered for 122, if any, is called with it and
    the event [{command: 122, data: member}] is returned. *)
Theorem switch_fronter_member_range self dev w n member rest :
  qmk (heap w self) = Some dev ->
  hid_read hid (trace w) dev 32 100 = Some (122 :: n :: member :: rest) ->
  (~ (0 <= member <= 3) ->
     parse_commands hid call_function self w
     = (Raise ValueError, after_read w dev))
  /\ (0 <= member <= 3 ->
     parse_commands hid call_function self w
     = (run_callback call_function self 122 [PyInt member] ;;;
        ret (command_info 122 (Some member))) (after_read w dev))
  /\ (0 <= member <= 3 -> callbacks (heap w self) !! 122 = None ->
     parse_commands hid call_function self w
     = (Ok (command_info 122 (Some member)), after_read w dev)).
Proof.
  intros Hq Hr.
  assert (Hlen : 3 <= len (122 :: n :: member :: rest)).
  { rewrite !len_cons. pose proof (len_nonneg rest). lia. }
  assert (Hin : 0 <= member <= 3 ->
     parse_commands hid call_function self w
     = (run_callback call_function self 122 [PyInt member] ;;;
        ret (command_info 122 (Some member))) (after_read w dev)).
  { intros Hm. parse_after_read Hq Hr.
    destruct (Z.eqb_spec (len (122 :: n :: member :: rest)) 0); [lia|].
    destruct (Z.ltb_spec (len (122 :: n :: member :: rest)) 3); [lia|].
    cbn [nth drop]. change (122 =? Commands.Do_Nothing) with false.
    change (122 =? Commands.PC_Raw_Debug_Msg) with false.
    change (122 =? Commands.PC_Debug_Msg) with false.
    change (122 =? Commands.PC_Switch_Fronter) with true.
    cbn beta iota zeta.
    destruct (SystemMembers_of_value_Some member Hm) as [m ->].
    reflexivity. }
  split; [|split; [exact Hin|]].
  - intros Hm. parse_after_read Hq Hr.
    destruct (Z.eqb_spec (len (122 :: n :: member :: rest)) 0); [lia|].
    destruct (Z.ltb_spec (len (122 :: n :: member :: rest)) 3); [lia|].
    cbn [nth drop]. change (122 =? Commands.Do_Nothing) with false.
    change (122 =? Commands.PC_Raw_Debug_Msg) with false.
    change (122 =? Commands.PC_Debug_Msg) with false.
    change (122 =? Commands.PC_Switch_Fronter) with true.
    cbn beta iota zeta.
    apply SystemMembers_of_value_None in Hm. rewrite Hm. reflexivity.
  - intros Hm Hcb. rewrite (Hin Hm).
    unfold run_callback. py_unfold. cbn [heap after_read].
    rewrite Hcb. reflexivity.
Qed.

(** After the header checks, a packet built by [construct_command_packet]
    and stripped of its report id is read back field by field. *)
Lemma stripped_packet c payload :
  tail (construct_command_packet c payload) = c :: len payload :: payload.
Proof. reflexivity. Qed.

(** C1, as the code has it.  Reading back the bytes of
    [construct_command_packet(command, payload)] without the report id,
    [parse_commands] finds the command at offset 0, [len(payload)] at
    offset 1 and, cut to that length, the payload at offset 2.  What it
    then returns is decided by the command: an event for 122, 123 and 124
    (the first payload byte, the little-endian value of the payload, no
    data), [None] for 0, 120 and 121, and [UnknownCommand] for every other
    value, the commands 1 to 4 of the sending direction included. *)
Theorem encoded_packet_parses_back self dev w command_type payload :
  qmk (heap w self) = Some dev ->
  hid_read hid (trace w) dev 32 100
    = Some (tail (construct_command_packet command_type payload)) ->
  payload <> [] ->
  let stripped := tail (construct_command_packet command_type payload) in
  let first_byte := nth 0 payload 0 in
  let value := int_from_bytes_little payload in
  (nth 0 stripped 0 = command_type
   /\ nth 1 stripped 0 = len payload
   /\ take (Z.to_nat (nth 1 stripped 0)) (drop 2 stripped) = payload)
  /\ parse_commands hid call_function self w
     = (if command_type =? 0 then ret PyNone
        else if command_type =? 120 then ret PyNone
        else if command_type =? 121 then
          if utf8_valid payload then ret PyNone else raise UnicodeDecodeError
        else if command_type =? 122 then
          match SystemMembers_of_value first_byte with
          | None => raise ValueError
          | Some _ =>
            run_callback call_function self 122 [PyInt first_byte] ;;;
            ret (command_info 122 (Some first_byte))
          end
        else if command_type =? 123 then
          run_callback call_function self 123 [PyInt value] ;;;
          ret (command_info 123 (Some value))
        else if command_type =? 124 then
          run_callback call_function self 124 [] ;;;
          ret (command_info 124 None)
        else raise UnknownCommand) (after_read w dev).
Proof.
  intros Hq Hr Hne stripped first_byte value.
  assert (Htake : take (Z.to_nat (len payload)) payload = payload).
  { unfold len. rewrite Nat2Z.id. apply firstn_all. }
  split.
  - subst stripped. rewrite stripped_packet. cbn [nth drop].
    repeat split. exact Htake.
  - parse_after_read Hq Hr. rewrite stripped_packet.
    assert (Hlen : 3 <= len (command_type :: len payload :: payload)).
    { rewrite !len_cons. destruct payload; [congruence|].
      rewrite len_cons. pose proof (len_nonneg payload). lia. }
    destruct (Z.eqb_spec (len (command_type :: len payload :: payload)) 0);
      [lia|].
    destruct (Z.ltb_spec (len (command_type :: len payload :: payload)) 3);
      [lia|].
    cbn [nth drop].
    unfold Commands.Do_Nothing, Commands.PC_Raw_Debug_Msg,
      Commands.PC_Debug_Msg, Commands.PC_Switch_Fronter,
      Commands.PC_Notify_Layer_Change, Commands.PC_Activity_Ping.
    cbn zeta. change (drop 0 payload) with payload. rewrite Htake.
    destruct (command_type =? 0); [reflexivity|].
    destruct (command_type =? 120); [reflexivity|].
    destruct (command_type =? 121); [reflexivity|].
    destruct (Z.eqb_spec command_type 122) as [->|]; [reflexivity|].
    destruct (Z.eqb_spec command_type 123) as [->|]; [reflexivity|].
    destruct (Z.eqb_spec command_type 124) as [->|]; reflexivity.
Qed.

(** Whatever [parse_commands] returns, it is [None] or a [dict], and so
    never equal to the integer the polling loops compare it with. *)
Lemma parse_commands_result_is_not_an_int self w v w' n :
  parse_commands hid call_function self w = (Ok v, w') ->
  py_eq_int v n = false.
Proof.
  unfold parse_commands, run_callback. py_unfold.
  repeat match goal with
         | |- context [match ?x with _ => _ end] => destruct x eqn:?
         end;
    intros E; inversion E; reflexivity.
Qed.

(** The [return] inside the polling loop is never taken. *)
Lemma poll_keyboards_runs_to_the_end pause _keyboards : forall w,
  fst (poll_keyboards hid call_function pause _keyboards w) = Ok true -> False.
Proof.
  induction _keyboards as [|kb rest IH]; intros w; cbn [poll_keyboards].
  - discriminate.
  - unfold bind at 1.
    destruct (parse_commands hid call_function kb w) as [[v|e] w1] eqn:E;
      [|discriminate].
    rewrite (parse_commands_result_is_not_an_int _ _ _ _ _ E).
    apply IH.
Qed.

End ReceivePath.

(** An empty read and a two-byte read on an open Lily58. *)
Lemma parse_commands_length_guards_witness :
  let w := world_of (lily_open 0%nat) in
  parse_commands (scripted_hid [] [Some []]) no_effect 0%nat w
    = (Ok PyNone, after_read w 0%nat)
  /\ parse_commands (scripted_hid [] [Some [122; 1]]) no_effect 0%nat w
     = (Raise CorruptResponse, after_read w 0%nat).
Proof.
  cbn zeta. split.
  - apply (parse_commands_length_guards (scripted_hid [] [Some []]) no_effect
             0%nat 0%nat (world_of (lily_open 0%nat)) [] eq_refl eq_refl).
    reflexivity.
  - apply (parse_commands_length_guards (scripted_hid [] [Some [122; 1]])
             no_effect 0%nat 0%nat (world_of (lily_open 0%nat)) [122; 1]
             eq_refl eq_refl).
    vm_compute. split; reflexivity.
Defined.

(** The two layer masks of the specification: [[0x01, 0x02]] read with length
    2 is [0x0201], [[0xFF]] read with length 1 is 255. *)
Lemma layer_change_little_endian_witness :
  let w := world_of (lily_open 0%nat) in
  parse_commands (scripted_hid [] [Some [123; 2; 0x01; 0x02]]) no_effect 0%nat w
    = (Ok (command_info 123 (Some 0x0201)), after_read w 0%nat)
  /\ parse_commands (scripted_hid [] [Some [123; 1; 0xFF]]) no_effect 0%nat w
     = (Ok (command_info 123 (Some 255)), after_read w 0%nat).
Proof.
  cbn zeta. split.
  - apply (layer_change_little_endian
             (scripted_hid [] [Some [123; 2; 0x01; 0x02]]) no_effect
             0%nat 0%nat (world_of (lily_open 0%nat)) 2 [0x01; 0x02]
             eq_refl eq_refl).
    + discriminate.
    + reflexivity.
  - apply (layer_change_little_endian
             (scripted_hid [] [Some [123; 1; 0xFF]]) no_effect
             0%nat 0%nat (world_of (lily_open 0%nat)) 1 [0xFF]
             eq_refl eq_refl).
    + discriminate.
    + reflexivity.
Defined.

(** Member id 7 is refused, member id 2 is decoded. *)
Lemma switch_fronter_member_range_witness :
  let w := world_of (lily_open 0%nat) in
  parse_commands (scripted_hid [] [Some [122; 1; 7]]) no_effect 0%nat w
    = (Raise ValueError, after_read w 0%nat)
  /\ parse_commands (scripted_hid [] [Some [122; 1; 2]]) no_effect 0%nat w
     = (Ok (command_info 122 (Some 2)), after_read w 0%nat).
Proof.
  cbn zeta. split.
  - apply (switch_fronter_member_range (scripted_hid [] [Some [122; 1; 7]])
             no_effect 0%nat 0%nat (world_of (lily_open 0%nat)) 1 7 []
             eq_refl eq_refl).
    lia.
  - apply (switch_fronter_member_range (scripted_hid [] [Some [122; 1; 2]])
             no_effect 0%nat 0%nat (world_of (lily_open 0%nat)) 1 2 []
             eq_refl eq_refl).
    + lia.
    + reflexivity.
Defined.

(** C1 as stated fails: the activity ping the program itself sends,
    [(4, [0])], fits a 32-byte packet, and its bytes read back raise
    [UnknownCommand]; an empty payload leaves a two-byte buffer, which raises
    [CorruptResponse]; and for command 122 only the first payload byte
    comes back. *)
Lemma roundtrip_fails_outside_receiving_commands :
  let w := world_of (lily_open 0%nat) in
  let echo c p := scripted_hid [] [Some (tail (construct_command_packet c p))] in
  3 + len [0] <= packet_size (heap w 0%nat)
  /\ parse_commands (echo 4 [0]) no_effect 0%nat w
     = (Raise UnknownCommand, after_read w 0%nat)
  /\ parse_commands (echo 124 []) no_effect 0%nat w
     = (Raise CorruptResponse, after_read w 0%nat)
  /\ parse_commands (echo 122 [1; 2; 3]) no_effect 0%nat w
     = (Ok (command_info 122 (Some 1)), after_read w 0%nat).
Proof. vm_compute. repeat split; discriminate. Qed.

(** A layer-change packet, encoded and read back. *)
Lemma encoded_packet_parses_back_witness :
  let w := world_of (lily_open 0%nat) in
  parse_commands
    (scripted_hid [] [Some (tail (construct_command_packet 123 [1; 2]))])
    no_effect 0%nat w
  = (run_callback no_effect 0%nat 123 [PyInt 513] ;;;
     ret (command_info 123 (Some 513))) (after_read w 0%nat).
Proof.
  cbn zeta.
  apply (encoded_packet_parses_back
           (scripted_hid [] [Some (tail (construct_command_packet 123 [1; 2]))])
           no_effect 0%nat 0%nat (world_of (lily_open 0%nat)) 123 [1; 2]
           eq_refl eq_refl).
  discriminate.
Defined.

(** C2 on a switch-fronter request.  The first read of keyboard 0 yields
    [[122, 1, 1]], which [parse_commands] decodes to the event
    [{command: 122, data: 1}]; [poll_for_new_commands] nevertheless runs
    all of its twenty rounds, and [poll_for_new_commands_fast] goes on to
    read keyboard 1. *)
Theorem poll_keeps_going_after_switch_fronter :
  let hid := scripted_hid [] [Some [122; 1; 1]] in
  fst (parse_commands hid no_effect 0%nat open_keyboards)
    = Ok (command_info 122 (Some 1))
  /\ trace (snd (poll_for_new_commands hid no_effect [0%nat] open_keyboards))
     = concat (replicate 20 [HidRead 0%nat 32 100; Sleep 500])
  /\ trace (snd (poll_for_new_commands_fast hid no_effect [0%nat; 1%nat]
                                            open_keyboards))
     = [HidRead 0%nat 32 100; HidRead 1%nat 32 100].
Proof. vm_compute. repeat split. Qed.

(** ** LED fragmentation *)

Lemma led_tuples_nil first_led : led_tuples first_led [] = [].
Proof. reflexivity. Qed.

Lemma led_tuples_snoc first_led pre hsv :
  led_tuples first_led (pre ++ [hsv])
  = led_tuples first_led pre
    ++ [first_led + Z.of_nat (length pre); Hue hsv; Sat hsv; Val hsv].
Proof.
  unfold led_tuples. rewrite imap_app, concat_app. cbn [imap concat].
  rewrite Nat.add_0_r, app_nil_r. reflexivity.
Qed.

Lemma len_concat_imap_4 {A} (l : list A) : forall f : nat -> A -> list Z,
  (forall i x, length (f i x) = 4%nat) ->
  len (concat (imap f l)) = 4 * len l.
Proof.
  induction l as [|x l IH]; intros f Hf; [reflexivity|].
  cbn [imap concat]. rewrite len_app, len_cons, IH.
  - unfold len at 1. rewrite Hf. lia.
  - intros i y. apply Hf.
Qed.

Lemma len_led_tuples first_led chunk :
  len (led_tuples first_led chunk) = 4 * len chunk.
Proof. unfold led_tuples. apply len_concat_imap_4. reflexivity. Qed.

(** What the specification asks of the fragments. *)
Lemma led_fragments_sizes fuel n : forall leds first_led,
  (1 <= n)%nat -> (length leds <= fuel)%nat ->
  Forall (fun f => (length f.2 <= n)%nat) (led_fragments fuel n leds first_led).
Proof.
  induction fuel as [|fuel IH]; intros leds first_led Hn Hfuel;
    cbn [led_fragments].
  - constructor; [cbn; lia | constructor].
  - destruct (decide (length leds <= n)%nat) as [Hle|Hgt].
    + constructor; [exact Hle | constructor].
    + constructor.
      * cbn. rewrite length_take. lia.
      * apply IH; [exact Hn|]. rewrite length_drop. lia.
Qed.

Lemma led_fragments_concat fuel n : forall leds first_led,
  concat (map snd (led_fragments fuel n leds first_led)) = leds.
Proof.
  induction fuel as [|fuel IH]; intros leds first_led; cbn [led_fragments].
  - cbn. apply app_nil_r.
  - destruct (decide (length leds <= n)%nat).
    + cbn. apply app_nil_r.
    + cbn [map concat snd]. rewrite IH. apply take_drop.
Qed.

Lemma led_fragments_start fuel n : forall leds first_led k f,
  led_fragments fuel n leds first_led !! k = Some f ->
  f.1 = first_led
        + len (concat (map snd (take k (led_fragments fuel n leds first_led)))).
Proof.
  induction fuel as [|fuel IH]; intros leds first_led k f; cbn [led_fragments].
  - destruct k as [|k]; [|discriminate].
    intros [= <-]. cbn. unfold len. cbn. lia.
  - destruct (decide (length leds <= n)%nat) as [Hle|Hgt].
    + destruct k as [|k]; [|discriminate].
      intros [= <-]. cbn. unfold len. cbn. lia.
    + destruct k as [|k].
      * intros [= <-]. cbn. unfold len. cbn. lia.
      * intros Hk. cbn in Hk. apply IH in Hk. rewrite Hk.
        change (take (S k) ((first_led, take n leds) :: ?rest))
          with ((first_led, take n leds) :: take k rest).
        cbn [map concat snd]. rewrite len_app.
        unfold len at 2. rewrite length_take. lia.
Qed.

Section Fragmentation.

Variable hid : HidApi.

(** One pass of the loop of [set_RGB_LEDs], entered after the LEDs [pre]
    have been packed: it sends everything when the list fits one command,
    and otherwise sends the first [leds_per_command] LEDs and recurses on
    the rest. *)
Lemma set_RGB_LEDs_loop_spec recurse self lpc led_values first_led :
  forall rest pre,
    led_values = pre ++ rest ->
    Z.of_nat (length pre) <= lpc ->
    set_RGB_LEDs_loop hid recurse self lpc led_values first_led
                      (length pre) rest (led_tuples first_led pre)
    = if decide (length led_values <= Z.to_nat lpc)%nat then
        (send_command hid self Commands.KB_Set_RGB_LEDs
                      (Some (led_tuples first_led led_values)) ;;; ret tt)
      else
        (send_command hid self Commands.KB_Set_RGB_LEDs
           (Some (led_tuples first_led (take (Z.to_nat lpc) led_values))) ;;;
         recurse (drop (Z.to_nat lpc) led_values) (first_led + lpc)).
Proof.
  induction rest as [|hsv rest IH]; intros pre Hall Hpre;
    cbn [set_RGB_LEDs_loop].
  - rewrite app_nil_r in Hall. subst pre.
    destruct (decide (length led_values <= Z.to_nat lpc)%nat); [reflexivity|lia].
  - destruct (Z.leb_spec lpc (Z.of_nat (length pre))) as [Hfull|Hroom].
    + assert (Hn : Z.to_nat lpc = length pre) by lia.
      assert (Hlen : length led_values = (length pre + S (length rest))%nat).
      { rewrite Hall, length_app. reflexivity. }
      destruct (decide (length led_values <= Z.to_nat lpc)%nat); [lia|].
      rewrite Hn.
      replace (take (length pre) led_values) with pre
        by (rewrite Hall, take_app_length; reflexivity).
      replace (first_led + lpc) with (first_led + Z.of_nat (length pre)) by lia.
      reflexivity.
    + rewrite <- led_tuples_snoc.
      replace (S (length pre)) with (length (pre ++ [hsv]))
        by (rewrite length_app; cbn; lia).
      apply IH.
      * rewrite <- app_assoc. exact Hall.
      * rewrite length_app. cbn. lia.
Qed.

Lemma set_RGB_LEDs_run self lpc fuel :
  forall led_values first_led depth w,
    1 <= lpc ->
    (packet_size (heap w self) - 3) `div` 4 = lpc ->
    (length led_values <= fuel)%nat -> (fuel < depth)%nat ->
    set_RGB_LEDs hid depth self led_values first_led w
    = send_each hid self Commands.KB_Set_RGB_LEDs
        (map (fun f => led_tuples f.1 f.2)
             (led_fragments fuel (Z.to_nat lpc) led_values first_led)) w.
Proof.
  induction fuel as [|fuel IH]; intros led_values first_led depth w Hlpc Hw
    Hfuel Hdepth; (destruct depth as [|depth]; [lia|]);
    cbn [set_RGB_LEDs]; unfold bind at 1, get_obj; rewrite Hw;
    rewrite (set_RGB_LEDs_loop_spec _ self lpc led_values first_led
               led_values [] eq_refl) by (cbn; lia);
    cbn [led_fragments].
  - destruct (decide (length led_values <= Z.to_nat lpc)%nat); [|lia].
    reflexivity.
  - destruct (decide (length led_values <= Z.to_nat lpc)%nat) as [Hle|Hgt];
      [reflexivity|].
    cbn [map send_each fst snd]. unfold bind.
    pose proof (write_packet_size hid self
      (construct_command_packet Commands.KB_Set_RGB_LEDs
         (led_tuples first_led (take (Z.to_nat lpc) led_values))) w self)
      as Hsize.
    unfold send_command.
    destruct (write hid self _ w) as [[r|e] w1]; [|reflexivity].
    cbn [snd] in Hsize.
    replace (first_led + Z.of_nat (Z.to_nat lpc)) with (first_led + lpc) by lia.
    apply IH.
    + exact Hlpc.
    + rewrite Hsize. exact Hw.
    + rewrite length_drop. lia.
    + lia.
Qed.

(** C5.  On a keyboard whose packets hold at least one LED, [set_RGB_LEDs]
    sends, in order and one [KB_Set_RGB_LEDs] command each, the fragments
    of the LED list (stopping only if a send raises).  No fragment has
    more than [floor((packet_size - 3) / 4)] LEDs; fragment [k] starts at
    the starting index plus the number of LEDs in the fragments before it;
    each payload is made of whole [index, H, S, V] tuples, four bytes per
    LED of its fragment, and fits the packet; and the fragments' LEDs
    concatenated are the input list. *)
Theorem set_RGB_LEDs_fragments self led_values first_led w depth :
  let leds_per_command := (packet_size (heap w self) - 3) `div` 4 in
  let fragments :=
    led_fragments (length led_values) (Z.to_nat leds_per_command)
                  led_values first_led in
  1 <= leds_per_command ->
  (length led_values < depth)%nat ->
  set_RGB_LEDs hid depth self led_values first_led w
    = send_each hid self Commands.KB_Set_RGB_LEDs
                (map (fun f => led_tuples f.1 f.2) fragments) w
  /\ Forall (fun f => len f.2 <= leds_per_command) fragments
  /\ (forall k f, fragments !! k = Some f ->
        f.1 = first_led + len (concat (map snd (take k fragments))))
  /\ Forall (fun f => len (led_tuples f.1 f.2) = 4 * len f.2
                      /\ 3 + len (led_tuples f.1 f.2)
                         <= packet_size (heap w self)) fragments
  /\ concat (map snd fragments) = led_values.
Proof.
  intros lpc fragments Hlpc Hdepth.
  assert (Hsizes : Forall (fun f => len f.2 <= lpc) fragments).
  { apply (List.Forall_impl
             (P := fun f : Z * list HSV => (length f.2 <= Z.to_nat lpc)%nat)).
    - intros f Hf. unfold len. lia.
    - apply (led_fragments_sizes (length led_values) (Z.to_nat lpc)
               led_values first_led); lia. }
  split; [|split; [|split; [|split]]].
  - apply (set_RGB_LEDs_run self lpc (length led_values));
      [exact Hlpc | reflexivity | lia | exact Hdepth].
  - exact Hsizes.
  - apply led_fragments_start.
  - eapply List.Forall_impl; [|exact Hsizes].
    intros f Hf. cbn beta in Hf. rewrite len_led_tuples.
    split; [reflexivity|].
    pose proof (Z.mul_div_le (packet_size (heap w self) - 3) 4).
    subst lpc. lia.
  - apply led_fragments_concat.
Qed.

End Fragmentation.

(** The twelve LEDs of a Lily58, packet size 32: seven LEDs from index 0,
    then five from index 7, and the two packets that reach the transport. *)
Lemma set_RGB_LEDs_fragments_witness :
  let hid := scripted_hid [] [] in
  let w := world_of (lily_open 0%nat) in
  let leds := rainbow 12 in
  led_fragments 12 7 leds 0 = [(0, take 7 leds); (7, drop 7 leds)]
  /\ set_RGB_LEDs hid 13 0%nat leds 0 w
     = send_each hid 0%nat Commands.KB_Set_RGB_LEDs
         [led_tuples 0 (take 7 leds); led_tuples 7 (drop 7 leds)] w
  /\ trace (snd (set_RGB_LEDs hid 13 0%nat leds 0 w))
     = [HidWrite 0%nat
          (construct_command_packet 3 (led_tuples 0 (take 7 leds)));
        HidWrite 0%nat
          (construct_command_packet 3 (led_tuples 7 (drop 7 leds)))].
Proof.
  cbn zeta. split; [reflexivity|].
  assert (Hrun := set_RGB_LEDs_fragments (scripted_hid [] []) 0%nat (rainbow 12)
                    0 (world_of (lily_open 0%nat)) 13).
  cbn zeta in Hrun.
  destruct Hrun as [Hrun _]; [vm_compute; discriminate | vm_compute; lia |].
  split; [exact Hrun|].
  rewrite Hrun. reflexivity.
Defined.

(** ** What no method changes *)

Section WellBehaved.

Variable hid : HidApi.

Lemma wb_ret {A} (a : A) : well_behaved (ret a).
Proof. intros w. split; [reflexivity | exists []; symmetry; apply app_nil_r]. Qed.

Lemma wb_raise {A} (e : exn) : well_behaved (@raise A e).
Proof. intros w. split; [reflexivity | exists []; symmetry; apply app_nil_r]. Qed.

Lemma wb_get_obj self : well_behaved (get_obj self).
Proof. intros w. split; [reflexivity | exists []; symmetry; apply app_nil_r]. Qed.

Lemma wb_emit ev : well_behaved (emit ev).
Proof. intros w. split; [reflexivity | exists [ev]; reflexivity]. Qed.

Lemma wb_update_obj self f :
  (forall kb, static_fields (f kb) = static_fields kb) ->
  well_behaved (update_obj self f).
Proof.
  intros Hf w. split; [|exists []; symmetry; apply app_nil_r].
  intros other. cbn [update_obj snd heap].
  destruct (decide (self = other)) as [->|Hne].
  - rewrite fn_lookup_insert. apply Hf.
  - rewrite fn_lookup_insert_ne by exact Hne. reflexivity.
Qed.

Lemma wb_bind {A B} (c : Py A) (k : A -> Py B) :
  well_behaved c -> (forall a, well_behaved (k a)) -> well_behaved (bind c k).
Proof.
  intros Hc Hk w. unfold bind.
  destruct (Hc w) as [Hs [evs Ht]].
  destruct (c w) as [[a|e] w1]; cbn [snd] in *.
  - destruct (Hk a w1) as [Hs' [evs' Ht']]. split.
    + intros other. rewrite Hs'. apply Hs.
    + exists (evs ++ evs'). rewrite Ht', Ht. symmetry. apply app_assoc.
  - split; [exact Hs | exists evs; exact Ht].
Qed.

Lemma wb_try_except {A} (c : Py A) handles (handler : Py A) :
  well_behaved c -> well_behaved handler ->
  well_behaved (try_except c handles handler).
Proof.
  intros Hc Hh w. unfold try_except.
  destruct (Hc w) as [Hs [evs Ht]].
  destruct (c w) as [[a|e] w1]; cbn [snd] in *.
  - split; [exact Hs | exists evs; exact Ht].
  - destruct (handles e); [|split; [exact Hs | exists evs; exact Ht]].
    destruct (Hh w1) as [Hs' [evs' Ht']]. split.
    + intros other. rewrite Hs'. apply Hs.
    + exists (evs ++ evs'). rewrite Ht', Ht. symmetry. apply app_assoc.
Qed.

Lemma wb_traced {A} (answer : World -> outcome A) ev :
  well_behaved (fun w => (answer w, mkWorld (heap w) (trace w ++ [ev w]))).
Proof. intros w. split; [reflexivity | exists [ev w]; reflexivity]. Qed.

Lemma wb_enumerate : well_behaved (enumerate hid).
Proof. apply (wb_traced _ (fun _ => HidEnumerate)). Qed.

Lemma wb_Device path : well_behaved (Device hid path).
Proof.
  intros w. unfold Device. cbn zeta.
  destruct (hid_Device hid (trace w) path);
    (split; [reflexivity | exists [HidOpen path]; reflexivity]).
Qed.

Lemma wb_Device_write dev data : well_behaved (Device_write hid dev data).
Proof.
  intros w. unfold Device_write. cbn zeta.
  destruct (hid_write hid (trace w) dev data);
    (split; [reflexivity | exists [HidWrite dev data]; reflexivity]).
Qed.

Lemma wb_Device_read dev length timeout :
  well_behaved (Device_read hid dev length timeout).
Proof.
  intros w. unfold Device_read. cbn zeta.
  destruct (hid_read hid (trace w) dev length timeout);
    (split; [reflexivity | exists [HidRead dev length timeout]; reflexivity]).
Qed.

(** Goals [well_behaved c]: follow the structure of [c]. *)
Ltac wb_step :=
  first
    [ assumption
    | apply wb_ret | apply wb_raise | apply wb_get_obj | apply wb_emit
    | apply wb_update_obj; intros ?; reflexivity
    | apply wb_enumerate | apply wb_Device | apply wb_Device_write
    | apply wb_Device_read
    | apply wb_bind; [|intros ?]
    | apply wb_try_except
    | match goal with
      | |- well_behaved (match ?x with _ => _ end) => destruct x
      end ].
Ltac wb := cbn zeta; repeat wb_step.

Lemma wb_open_loop self items : well_behaved (open_loop hid self items).
Proof. induction items as [|hid_item rest IH]; cbn [open_loop]; wb. Qed.

Lemma wb_connect self : well_behaved (connect hid self).
Proof. unfold connect, open. wb. apply wb_open_loop. Qed.

Lemma wb_disconnect self : well_behaved (disconnect self).
Proof. unfold disconnect, Device_close. wb. Qed.

Lemma wb_write self data : well_behaved (write hid self data).
Proof. unfold write. wb. Qed.

Lemma wb_send_command self c d : well_behaved (send_command hid self c d).
Proof. unfold send_command. cbn zeta. apply wb_write. Qed.

Lemma wb_read self timeout length : well_behaved (read hid self timeout length).
Proof. unfold read. wb. Qed.

Lemma wb_send_current_fronter self id :
  well_behaved (send_current_fronter hid self id).
Proof. unfold send_current_fronter. wb; try apply wb_send_command. Qed.

Lemma wb_send_activity_ping self : well_behaved (send_activity_ping hid self).
Proof. unfold send_activity_ping. wb; try apply wb_send_command. Qed.

Lemma wb_set_RGB_LEDs_loop recurse self lpc led_values first_led :
  (forall l f, well_behaved (recurse l f)) ->
  forall rest i command_data,
    well_behaved (set_RGB_LEDs_loop hid recurse self lpc led_values first_led
                                    i rest command_data).
Proof.
  intros Hrec. induction rest as [|hsv rest IH]; intros i command_data;
    cbn [set_RGB_LEDs_loop].
  - wb; try apply wb_send_command.
  - destruct (lpc <=? Z.of_nat i); [|apply IH].
    wb; try apply wb_send_command; try apply Hrec.
Qed.

Lemma wb_set_RGB_LEDs depth self : forall led_values first_led,
  well_behaved (set_RGB_LEDs hid depth self led_values first_led).
Proof.
  induction depth as [|depth IH]; intros led_values first_led;
    cbn [set_RGB_LEDs]; wb.
  apply wb_set_RGB_LEDs_loop. exact IH.
Qed.

Section Callbacks.

Variable call_function : fn_ref -> obj_ref -> list pyval -> Py unit.
Hypothesis wb_call : forall fn self args, well_behaved (call_function fn self args).

Lemma wb_run_callback self command_id args :
  well_behaved (run_callback call_function self command_id args).
Proof. unfold run_callback, invoke. wb. apply wb_call. Qed.

Lemma wb_parse_commands self : well_behaved (parse_commands hid call_function self).
Proof.
  unfold parse_commands.
  apply wb_bind; [wb; apply wb_read|].
  intros [received_data|]; [|wb].
  repeat first [ progress cbn zeta | apply wb_run_callback | apply wb_call
               | wb_step ].
Qed.

Lemma wb_poll_keyboards pause _keyboards :
  well_behaved pause ->
  well_behaved (poll_keyboards hid call_function pause _keyboards).
Proof.
  intros Hp. induction _keyboards as [|kb rest IH]; cbn [poll_keyboards].
  - apply wb_ret.
  - apply wb_bind; [apply wb_parse_commands|].
    intros info. destruct (py_eq_int info Commands.PC_Switch_Fronter);
      [|exact IH].
    apply wb_bind; [exact Hp | intros _; apply wb_ret].
Qed.

Lemma wb_poll_rounds n _keyboards :
  well_behaved (poll_rounds hid call_function n _keyboards).
Proof.
  induction n as [|n IH]; cbn [poll_rounds].
  - apply wb_ret.
  - apply wb_bind; [apply wb_poll_keyboards, wb_emit|].
    intros [|]; [apply wb_ret|].
    apply wb_bind; [apply wb_emit | intros _; exact IH].
Qed.

End Callbacks.

(** X1.  Whatever the transport answers, the methods of [QMKKeyboard] leave the
    type, the ids, the packet size, the usage values and the callbacks of
    every keyboard as they are, and only ever append to the trace of
    outside calls; so do [parse_commands] and the polling loops when the
    registered callbacks do. *)
Theorem methods_keep_static_fields call_function :
  (forall fn self args, well_behaved (call_function fn self args)) ->
  (forall self, well_behaved (connect hid self))
  /\ (forall self, well_behaved (disconnect self))
  /\ (forall self data, well_behaved (write hid self data))
  /\ (forall self timeout length, well_behaved (read hid self timeout length))
  /\ (forall self c d, well_behaved (send_command hid self c d))
  /\ (forall self id, well_behaved (send_current_fronter hid self id))
  /\ (forall self, well_behaved (send_activity_ping hid self))
  /\ (forall depth self led_values first_led,
        well_behaved (set_RGB_LEDs hid depth self led_values first_led))
  /\ (forall self, well_behaved (parse_commands hid call_function self))
  /\ (forall kbs, well_behaved (poll_for_new_commands hid call_function kbs))
  /\ (forall kbs,
        well_behaved (poll_for_new_commands_fast hid call_function kbs)).
Proof.
  intros Hcall. repeat apply conj; intros.
  - apply wb_connect.
  - apply wb_disconnect.
  - apply wb_write.
  - apply wb_read.
  - apply wb_send_command.
  - apply wb_send_current_fronter.
  - apply wb_send_activity_ping.
  - apply wb_set_RGB_LEDs.
  - apply wb_parse_commands, Hcall.
  - apply wb_poll_rounds, Hcall.
  - unfold poll_for_new_commands_fast.
    apply wb_bind; [|intros _; apply wb_ret].
    apply wb_poll_keyboards; [exact Hcall | apply wb_ret].
Qed.

End WellBehaved.

(** A transport that answers by script and callbacks without effect: every
    method is well behaved on them. *)
Lemma methods_keep_static_fields_witness :
  well_behaved (parse_commands (scripted_hid [] []) no_effect 0%nat)
  /\ well_behaved (poll_for_new_commands (scripted_hid [] []) no_effect [0%nat]).
Proof.
  pose proof (methods_keep_static_fields (scripted_hid [] []) no_effect
                (fun _ _ _ => wb_ret tt)) as H.
  split; apply H.
Defined.

(** ** Connecting *)

Section Connecting.

Variable hid : HidApi.

(** [open] walks past the enumerated endpoints that are not the keyboard's
    or carry no path. *)
Lemma open_loop_skips self w rest : forall pre,
  Forall (fun item => endpoint_matches (heap w self) item = false) pre ->
  open_loop hid self (pre ++ rest) w = open_loop hid self rest w.
Proof.
  induction pre as [|item pre IH]; intros Hpre; [reflexivity|].
  inversion Hpre as [|? ? Hitem Hrest]; subst.
  cbn [app open_loop]. unfold bind at 1, get_obj at 1.
  unfold endpoint_matches in Hitem.
  destruct ((vendor_id (heap w self) =? item_vendor_id item)
            && (product_id (heap w self) =? item_product_id item)
            && (usage_page (heap w self) =? item_usage_page item)
            && (usage (heap w self) =? item_usage item)); [|apply IH, Hrest].
  destruct (item_path item) as [p|]; [|apply IH, Hrest].
  cbn in Hitem. discriminate.
Qed.

(** X2.  [connect] when nothing that is enumerated is the keyboard: it answers
    [False] instead of raising, the keyboard is marked disconnected and keeps
    whatever handle it had, and the transport was only asked to enumerate. *)
Theorem connect_without_endpoint self w :
  Forall (fun item => endpoint_matches (heap w self) item = false)
         (hid_enumerate hid (trace w)) ->
  connect hid self w
  = (Ok false, mark_disconnected self w (trace w ++ [HidEnumerate])).
Proof.
  intros Hnone. unfold connect, open, try_except.
  unfold bind at 1. unfold bind at 1. unfold enumerate at 1.
  set (w1 := mkWorld (heap w) (trace w ++ [HidEnumerate])).
  pose proof (open_loop_skips self w1 [] (hid_enumerate hid (trace w)) Hnone)
    as Hskip.
  rewrite app_nil_r in Hskip. unfold bind at 1. rewrite Hskip. reflexivity.
Qed.

(** X3.  [connect] takes the first enumerated endpoint that is the keyboard's and
    has a path.  When the transport opens it, the keyboard holds the new
    handle and is connected; when the transport refuses, the
    [hid.HIDException] leaves [connect] uncaught and the keyboard is as it
    was. *)
Theorem connect_first_endpoint self w pre item post path :
  hid_enumerate hid (trace w) = pre ++ item :: post ->
  Forall (fun item => endpoint_matches (heap w self) item = false) pre ->
  endpoint_matches (heap w self) item = true ->
  item_path item = Some path ->
  let tr := trace w ++ [HidEnumerate; HidOpen path] in
  match hid_Device hid (trace w ++ [HidEnumerate]) path with
  | Some dev =>
    fst (connect hid self w) = Ok true
    /\ trace (snd (connect hid self w)) = tr
    /\ forall r, heap (snd (connect hid self w)) r
                 = (<[self := set_connected true
                                (set_qmk (Some dev) (heap w self))]> (heap w)) r
  | None =>
    connect hid self w = (Raise HIDException, mkWorld (heap w) tr)
  end.
Proof.
  intros Henum Hpre Hitem Hpath tr.
  assert (Hconnect : connect hid self w
    = match hid_Device hid (trace w ++ [HidEnumerate]) path with
      | Some dev =>
        (Ok true,
         mkWorld (<[self := set_connected true
                              ((<[self := set_qmk (Some dev) (heap w self)]>
                                  (heap w)) self)]>
                    (<[self := set_qmk (Some dev) (heap w self)]> (heap w)))
                 tr)
      | None => (Raise HIDException, mkWorld (heap w) tr)
      end).
  { unfold connect, open, try_except.
    unfold bind at 1. unfold bind at 1. unfold enumerate at 1.
    set (w1 := mkWorld (heap w) (trace w ++ [HidEnumerate])).
    unfold bind at 1.
    rewrite Henum, (open_loop_skips self w1 (item :: post) pre Hpre).
    cbn [open_loop]. unfold bind at 1, get_obj at 1. cbn [heap w1].
    unfold endpoint_matches in Hitem.
    destruct ((vendor_id (heap w self) =? item_vendor_id item)
              && (product_id (heap w self) =? item_product_id item)
              && (usage_page (heap w self) =? item_usage_page item)
              && (usage (heap w self) =? item_usage item)); [|discriminate].
    rewrite Hpath. unfold bind at 1. unfold Device. cbn zeta. cbn [trace w1].
    subst tr. rewrite <- app_assoc. cbn [app].
    destruct (hid_Device hid (trace w ++ [HidEnumerate]) path) as [dev|];
      reflexivity. }
  rewrite Hconnect.
  destruct (hid_Device hid (trace w ++ [HidEnumerate]) path) as [dev|];
    [|reflexivity].
  cbn [fst snd trace heap]. repeat split.
  intros r. destruct (decide (self = r)) as [->|Hne].
  - rewrite !fn_lookup_insert. reflexivity.
  - rewrite !fn_lookup_insert_ne by exact Hne. reflexivity.
Qed.

End Connecting.

(** Nothing plugged in. *)
Lemma connect_without_endpoint_witness :
  connect (scripted_hid [] []) 0%nat (world_of lily)
  = (Ok false, mark_disconnected 0%nat (world_of lily) [HidEnumerate]).
Proof.
  apply (connect_without_endpoint (scripted_hid [] []) 0%nat (world_of lily)).
  constructor.
Defined.

(** A Navi10 is enumerated before the Lily58: the Lily58 is the one opened. *)
Lemma connect_first_endpoint_witness :
  let hid := with_devices [mkHidItem 0xFEED 0 0xFF60 0x61 (Some 5%nat);
                           lily_endpoint] (scripted_hid [] []) in
  fst (connect hid 0%nat (world_of lily)) = Ok true
  /\ trace (snd (connect hid 0%nat (world_of lily)))
     = [HidEnumerate; HidOpen 0%nat].
Proof.
  cbn zeta.
  pose proof (connect_first_endpoint
    (with_devices [mkHidItem 0xFEED 0 0xFF60 0x61 (Some 5%nat); lily_endpoint]
                  (scripted_hid [] []))
    0%nat (world_of lily) [mkHidItem 0xFEED 0 0xFF60 0x61 (Some 5%nat)]
    lily_endpoint [] 0%nat eq_refl) as H.
  cbn zeta in H.
  destruct H as (H1 & H2 & _); [repeat constructor | reflexivity | reflexivity|].
  split; assumption.
Defined.

(** ** Comparing keyboards *)

(** X4.  Two keyboards the constructor built compare equal exactly when they were
    built for the same keyboard type, whatever their callbacks and whether
    or not they have since been opened or marked disconnected. *)
Theorem constructed_keyboards_equal_iff_same_type
    type1 callbacks1 kb1 type2 callbacks2 kb2 handle1 connected1 :
  QMKKeyboard_init type1 callbacks1 = Ok kb1 ->
  QMKKeyboard_init type2 callbacks2 = Ok kb2 ->
  (QMKKeyboard_eq kb1 kb2 = true <-> type1 = type2)
  /\ QMKKeyboard_eq (set_connected connected1 (set_qmk handle1 kb1)) kb2
     = QMKKeyboard_eq kb1 kb2
  /\ QMKKeyboard_eq kb1 kb2 = QMKKeyboard_eq kb2 kb1.
Proof.
  unfold QMKKeyboard_init.
  destruct (String.eqb_spec type1 LILY58) as [->|N1];
    [|destruct (String.eqb_spec type1 NAVI10) as [->|N1']; [|discriminate]];
    (destruct (String.eqb_spec type2 LILY58) as [->|N2];
     [|destruct (String.eqb_spec type2 NAVI10) as [->|N2']; [|discriminate]]);
    intros [= <-] [= <-]; repeat split; try reflexivity; try discriminate;
    intros E; discriminate E.
Qed.

Lemma constructed_keyboards_equal_iff_same_type_witness :
  QMKKeyboard_eq lily (lily_open 3%nat) = true
  /\ QMKKeyboard_eq lily navi = false.
Proof.
  split.
  - reflexivity.
  - destruct (constructed_keyboards_equal_iff_same_type
                LILY58 None lily NAVI10 None navi None false eq_refl eq_refl)
      as [[H _] _].
    destruct (QMKKeyboard_eq lily navi); [|reflexivity].
    specialize (H eq_refl). discriminate H.
Defined.

(** ** More of the send path *)

Section SendingMore.

Variable hid : HidApi.

(** [send_current_fronter] looks the member up in [SystemMembers] before it
    sends anything: an id outside 0..3 raises [ValueError] and leaves the
    world untouched; an id inside goes out as the packet [[0, 1, 1, id]]. *)
Theorem send_current_fronter_member_check self qmk_system_id w :
  (~ (0 <= qmk_system_id <= 3) ->
     send_current_fronter hid self qmk_system_id w = (Raise ValueError, w))
  /\ (0 <= qmk_system_id <= 3 ->
     send_current_fronter hid self qmk_system_id w
     = (write hid self [0; 1; 1; qmk_system_id] ;;; ret tt) w).
Proof.
  unfold send_current_fronter. split; intros H.
  - apply SystemMembers_of_value_None in H. rewrite H. reflexivity.
  - destruct (SystemMembers_of_value_Some _ H) as [m ->]. reflexivity.
Qed.

(** X5.  On a keyboard with a handle, a command that fits and whose bytes are all
    in range reaches the transport as [[0, command, len(payload)]] followed
    by the payload, without padding; the transport's count is returned and
    no keyboard changes. *)
Theorem send_command_delivers self dev command_type payload n w :
  qmk (heap w self) = Some dev ->
  3 + len payload <= packet_size (heap w self) ->
  forallb is_byte (command_type :: len payload :: payload) = true ->
  hid_write hid (trace w) dev ([0; command_type; len payload] ++ payload)
    = Some n ->
  send_command hid self command_type (Some payload) w
  = (Ok n, mkWorld (heap w)
             (trace w ++ [HidWrite dev ([0; command_type; len payload]
                                        ++ payload)])).
Proof.
  intros Hq Hfit Hbytes Hwrite. unfold send_command.
  rewrite write_fits by (rewrite len_packet; exact Hfit).
  rewrite Hq. unfold construct_command_packet.
  change (forallb is_byte ([0; command_type; len payload] ++ payload))
    with (forallb is_byte (command_type :: len payload :: payload)).
  rewrite Hbytes. cbn zeta. rewrite Hwrite. reflexivity.
Qed.


(** X7.  Without a handle, [set_RGB_LEDs] raises [KeyboardDisconnected] on its
    first command, whatever the LED list: the transport is not called. *)
Theorem set_RGB_LEDs_without_device self depth led_values first_led w :
  qmk (heap w self) = None ->
  1 <= (packet_size (heap w self) - 3) `div` 4 ->
  set_RGB_LEDs hid (S depth) self led_values first_led w
  = (Raise KeyboardDisconnected, mark_disconnected self w (trace w)).
Proof.
  intros Hq Hlpc.
  set (lpc := (packet_size (heap w self) - 3) `div` 4) in *.
  cbn [set_RGB_LEDs]. unfold bind at 1, get_obj. fold lpc.
  rewrite (set_RGB_LEDs_loop_spec hid _ self lpc led_values first_led
             led_values [] eq_refl) by (cbn; lia).
  assert (Hraise : forall chunk (k : unit -> Py unit),
             (length chunk <= Z.to_nat lpc)%nat ->
             (send_command hid self Commands.KB_Set_RGB_LEDs
                           (Some (led_tuples first_led chunk)) ;;; k tt) w
             = (Raise KeyboardDisconnected, mark_disconnected self w (trace w))).
  { intros chunk k Hchunk. unfold bind, send_command.
    rewrite write_fits.
    - rewrite Hq. reflexivity.
    - rewrite len_packet, len_led_tuples.
      pose proof (Z.mul_div_le (packet_size (heap w self) - 3) 4).
      unfold len. subst lpc. lia. }
  destruct (decide (length led_values <= Z.to_nat lpc)%nat) as [Hle|Hgt].
  - apply (Hraise led_values (fun _ => ret tt) Hle).
  - apply (Hraise (take (Z.to_nat lpc) led_values)
             (fun _ => set_RGB_LEDs hid depth self
                         (drop (Z.to_nat lpc) led_values) (first_led + lpc))).
    rewrite length_take. lia.
Qed.

(** X8.  With a packet size too small for one LED (below 7), a non-empty LED list
    is never consumed: each call sends an empty command and recurses on the
    same list, so [set_RGB_LEDs] ends in an exception at every recursion
    depth (the recursion limit, if no send fails before). *)
Theorem set_RGB_LEDs_no_room_never_returns self hsv led_values depth :
  forall first_led w,
    (packet_size (heap w self) - 3) `div` 4 <= 0 ->
    exists e,
      fst (set_RGB_LEDs hid depth self (hsv :: led_values) first_led w)
      = Raise e.
Proof.
  induction depth as [|depth IH]; intros first_led w Hlpc.
  - exists RecursionError. reflexivity.
  - cbn [set_RGB_LEDs set_RGB_LEDs_loop]. unfold bind at 1, get_obj.
    destruct (Z.leb_spec ((packet_size (heap w self) - 3) `div` 4)
                         (Z.of_nat 0)) as [_|Hgt]; [|cbn in Hgt; lia].
    unfold bind. unfold send_command.
    pose proof (write_packet_size hid self
      (construct_command_packet Commands.KB_Set_RGB_LEDs []) w self) as Hsize.
    destruct (write hid self _ w) as [[r|e] w1]; [|exists e; reflexivity].
    cbn [snd] in Hsize. change (drop 0 (hsv :: led_values)) with (hsv :: led_values).
    apply IH. rewrite Hsize. exact Hlpc.
Qed.

End SendingMore.

(** Member 4 does not exist. *)
Lemma send_current_fronter_member_check_witness :
  send_current_fronter (scripted_hid [] []) 0%nat 4 (world_of (lily_open 0%nat))
  = (Raise ValueError, world_of (lily_open 0%nat)).
Proof.
  apply (send_current_fronter_member_check (scripted_hid [] []) 0%nat 4
           (world_of (lily_open 0%nat))).
  lia.
Defined.

(** The fronter packet for member 2 on an open Lily58. *)
Lemma send_command_delivers_witness :
  send_command (scripted_hid [] []) 0%nat 1 (Some [2])
               (world_of (lily_open 0%nat))
  = (Ok 4, mkWorld (heap (world_of (lily_open 0%nat)))
             [HidWrite 0%nat [0; 1; 1; 2]]).
Proof.
  apply (send_command_delivers (scripted_hid [] []) 0%nat 0%nat 1 [2] 4
           (world_of (lily_open 0%nat)));
    [reflexivity | vm_compute; discriminate | reflexivity | reflexivity].
Defined.


(** Twelve LEDs for a Lily58 that was never opened. *)
Lemma set_RGB_LEDs_without_device_witness :
  set_RGB_LEDs (scripted_hid [] []) 13 0%nat (rainbow 12) 0 (world_of lily)
  = (Raise KeyboardDisconnected, mark_disconnected 0%nat (world_of lily) []).
Proof.
  apply (set_RGB_LEDs_without_device (scripted_hid [] []) 0%nat 12%nat
           (rainbow 12) 0 (world_of lily));
    [reflexivity | vm_compute; discriminate].
Defined.

(** A keyboard whose packet size was set to 6: the recursion limit is hit. *)
Lemma set_RGB_LEDs_no_room_never_returns_witness :
  exists e,
    fst (set_RGB_LEDs (scripted_hid [] []) 50 0%nat [mkHSV 0 255 255] 0
           (world_of (mkKeyboard LILY58 0x04D8 0xEB2D 6 0xFF60 0x61
                                 (Some 0%nat) true ∅)))
    = Raise e.
Proof.
  apply (set_RGB_LEDs_no_room_never_returns (scripted_hid [] []) 0%nat).
  vm_compute. discriminate.
Defined.

(** ** More of the receive path *)

Section ReceivingMore.

Variable hid : HidApi.
Variable call_function : fn_ref -> obj_ref -> list pyval -> Py unit.

Lemma parse_commands_after_read self dev w data :
  qmk (heap w self) = Some dev ->
  hid_read hid (trace w) dev 32 100 = Some data ->
  3 <= len data ->
  parse_commands hid call_function self w
  = (let command_id := nth 0 data 0 in
     let data_length := nth 1 data 0 in
     let command_data := drop 2 data in
     if command_id =? 0 then ret PyNone
     else if command_id =? 120 then ret PyNone
     else if command_id =? 121 then
       if utf8_valid command_data then ret PyNone else raise UnicodeDecodeError
     else if command_id =? 122 then
       match SystemMembers_of_value (nth 0 command_data 0) with
       | None => raise ValueError
       | Some _ =>
         run_callback call_function self command_id
                      [PyInt (nth 0 command_data 0)] ;;;
         ret (command_info command_id (Some (nth 0 command_data 0)))
       end
     else if command_id =? 123 then
       run_callback call_function self command_id
         [PyInt (int_from_bytes_little
                   (take (Z.to_nat data_length) command_data))] ;;;
       ret (command_info command_id
              (Some (int_from_bytes_little
                       (take (Z.to_nat data_length) command_data))))
     else if command_id =? 124 then
       run_callback call_function self command_id [] ;;;
       ret (command_info command_id None)
     else raise UnknownCommand) (after_read w dev).
Proof.
  intros Hq Hr Hlen. unfold parse_commands.
  rewrite (bind_Ok _ _ _ _ _ (try_read_received hid self w dev data Hq Hr)).
  cbn beta iota.
  destruct (Z.eqb_spec (len data) 0); [lia|].
  destruct (Z.ltb_spec (len data) 3); [lia|].
  reflexivity.
Qed.

(** X9.  A keyboard that cannot be read, for want of a handle or because the
    transport fails, makes [parse_commands] return [None] like a keyboard
    with nothing to say: the [KeyboardDisconnected] is swallowed, and only
    the [connected] flag, now false, tells the difference. *)
Theorem parse_commands_swallows_disconnect self w :
  (qmk (heap w self) = None ->
     parse_commands hid call_function self w
     = (Ok PyNone, mark_disconnected self w (trace w)))
  /\ (forall dev,
        qmk (heap w self) = Some dev ->
        hid_read hid (trace w) dev 32 100 = None ->
        parse_commands hid call_function self w
        = (Ok PyNone,
           mark_disconnected self w (trace w ++ [HidRead dev 32 100]))).
Proof.
  split.
  - intros Hq. unfold parse_commands, read, try_except, bind, get_obj.
    rewrite Hq. reflexivity.
  - intros dev Hq Hr. unfold parse_commands.
    unfold bind at 1, try_except, bind at 1.
    rewrite (read_with_device hid self 100 32 w dev Hq). cbn zeta.
    rewrite Hr. reflexivity.
Qed.

(** X10.  A received packet of three bytes or more whose command byte is none of
    0, 120, 121, 122, 123, 124 raises [UnknownCommand]; no callback is
    called and the keyboard stays as it is. *)
Theorem parse_commands_unknown_command self dev w command_id data_length b rest :
  qmk (heap w self) = Some dev ->
  hid_read hid (trace w) dev 32 100
    = Some (command_id :: data_length :: b :: rest) ->
  command_id <> 0 -> ~ (120 <= command_id <= 124) ->
  parse_commands hid call_function self w
  = (Raise UnknownCommand, after_read w dev).
Proof.
  intros Hq Hr H0 Hrange.
  rewrite (parse_commands_after_read self dev w _ Hq Hr)
    by (rewrite !len_cons; pose proof (len_nonneg rest); lia).
  cbn [nth]. cbn zeta.
  destruct (Z.eqb_spec command_id 0); [lia|].
  destruct (Z.eqb_spec command_id 120); [lia|].
  destruct (Z.eqb_spec command_id 121); [lia|].
  destruct (Z.eqb_spec command_id 122); [lia|].
  destruct (Z.eqb_spec command_id 123); [lia|].
  destruct (Z.eqb_spec command_id 124); [lia|].
  reflexivity.
Qed.

(** X11.  A debug-text packet [[121, n, payload...]] is decoded as UTF-8 over the
    whole rest of the buffer, not over its first [n] bytes: the stated
    length plays no part, and a buffer whose rest is not valid UTF-8 raises
    [UnicodeDecodeError].  A valid one returns [None] and calls nothing. *)
Theorem parse_commands_debug_text self dev w data_length b rest :
  qmk (heap w self) = Some dev ->
  hid_read hid (trace w) dev 32 100 = Some (121 :: data_length :: b :: rest) ->
  parse_commands hid call_function self w
  = (if utf8_valid (b :: rest) then Ok PyNone else Raise UnicodeDecodeError,
     after_read w dev).
Proof.
  intros Hq Hr.
  rewrite (parse_commands_after_read self dev w _ Hq Hr)
    by (rewrite !len_cons; pose proof (len_nonneg rest); lia).
  cbn [nth drop]. cbn zeta.
  change (121 =? 0) with false. change (121 =? 120) with false.
  change (121 =? 121) with true. cbn iota.
  change (drop 0 (b :: rest)) with (b :: rest).
  destruct (utf8_valid (b :: rest)); reflexivity.
Qed.

(** An activity-ping packet (124) calls the callback registered for 124, if
    any, with the keyboard alone and returns the event
    [{command: 124, data: None}], whatever length and payload bytes it
    carries; the packets 0 and 120 return [None] and call nothing. *)
Theorem parse_commands_activity_ping self dev w command_id data_length b rest :
  qmk (heap w self) = Some dev ->
  hid_read hid (trace w) dev 32 100
    = Some (command_id :: data_length :: b :: rest) ->
  (command_id = 124 ->
     parse_commands hid call_function self w
     = (run_callback call_function self 124 [] ;;;
        ret (command_info 124 None)) (after_read w dev))
  /\ (command_id = 0 \/ command_id = 120 ->
     parse_commands hid call_function self w = (Ok PyNone, after_read w dev)).
Proof.
  intros Hq Hr.
  rewrite (parse_commands_after_read self dev w _ Hq Hr)
    by (rewrite !len_cons; pose proof (len_nonneg rest); lia).
  cbn [nth]. cbn zeta. split.
  - intros ->. reflexivity.
  - intros [-> | ->]; reflexivity.
Qed.

(** X12.  With no callback registered, all [parse_commands] does to the world is
    one read: afterwards the trace has that read and nothing else, and the
    keyboards are as before, except that a failed read marks the keyboard
    disconnected.  It never writes. *)
Theorem parse_commands_only_reads self dev w :
  qmk (heap w self) = Some dev ->
  callbacks (heap w self) = ∅ ->
  snd (parse_commands hid call_function self w) = after_read w dev
  \/ snd (parse_commands hid call_function self w)
     = mark_disconnected self w (trace w ++ [HidRead dev 32 100]).
Proof.
  intros Hq Hcb.
  destruct (hid_read hid (trace w) dev 32 100) as [data|] eqn:Hr.
  - left. unfold parse_commands.
    rewrite (bind_Ok _ _ _ _ _ (try_read_received hid self w dev data Hq Hr)).
    cbn beta iota zeta.
    assert (Hrun : forall c args (v : pyval),
               snd ((run_callback call_function self c args ;;; ret v)
                      (after_read w dev)) = after_read w dev).
    { intros c args v. unfold run_callback, bind, get_obj.
      cbn [heap after_read]. rewrite Hcb, lookup_empty. reflexivity. }
    repeat match goal with
           | |- context [if ?x then _ else _] => destruct x
           | |- context [match SystemMembers_of_value ?x with _ => _ end] =>
             destruct (SystemMembers_of_value x)
           end;
      first [reflexivity | apply Hrun].
  - right. unfold parse_commands.
    unfold bind at 1, try_except, bind at 1.
    rewrite (read_with_device hid self 100 32 w dev Hq). cbn zeta.
    rewrite Hr. reflexivity.
Qed.

(** X13.  The polling loops never take their early [return]: however the
    keyboards answer, [poll_for_new_commands_fast] is [parse_commands] on
    each keyboard in list order, and stops early only when one of them
    raises. *)
Theorem poll_fast_polls_every_keyboard _keyboards : forall w,
  poll_for_new_commands_fast hid call_function _keyboards w
  = parse_each hid call_function _keyboards w.
Proof.
  unfold poll_for_new_commands_fast.
  induction _keyboards as [|kb rest IH]; intros w; [reflexivity|].
  cbn [poll_keyboards parse_each]. unfold bind at 1 2. unfold bind at 1 in IH.
  unfold bind at 2.
  destruct (parse_commands hid call_function kb w) as [[v|e] w1] eqn:E;
    [|reflexivity].
  rewrite (parse_commands_result_is_not_an_int _ _ _ _ _ _ _ E).
  apply IH.
Qed.

End ReceivingMore.

Lemma parse_commands_swallows_disconnect_witness :
  parse_commands (scripted_hid [] [None]) no_effect 0%nat
                 (world_of (lily_open 0%nat))
  = (Ok PyNone,
     mark_disconnected 0%nat (world_of (lily_open 0%nat))
                       [HidRead 0%nat 32 100]).
Proof.
  apply (parse_commands_swallows_disconnect (scripted_hid [] [None]) no_effect
           0%nat (world_of (lily_open 0%nat))); reflexivity.
Defined.

(** A sending-direction command echoed back by the keyboard. *)
Lemma parse_commands_unknown_command_witness :
  parse_commands (scripted_hid [] [Some [3; 0; 0]]) no_effect 0%nat
                 (world_of (lily_open 0%nat))
  = (Raise UnknownCommand, after_read (world_of (lily_open 0%nat)) 0%nat).
Proof.
  apply (parse_commands_unknown_command (scripted_hid [] [Some [3; 0; 0]])
           no_effect 0%nat 0%nat (world_of (lily_open 0%nat)) 3 0 0 []);
    [reflexivity | reflexivity | lia | lia].
Defined.

(** [A] followed by a stray 0xFF, with a stated length of 1. *)
Lemma parse_commands_debug_text_witness :
  parse_commands (scripted_hid [] [Some [121; 1; 65; 255]]) no_effect 0%nat
                 (world_of (lily_open 0%nat))
  = (Raise UnicodeDecodeError, after_read (world_of (lily_open 0%nat)) 0%nat).
Proof.
  apply (parse_commands_debug_text (scripted_hid [] [Some [121; 1; 65; 255]])
           no_effect 0%nat 0%nat (world_of (lily_open 0%nat)) 1 65 [255]);
    reflexivity.
Defined.

Lemma parse_commands_activity_ping_witness :
  parse_commands (scripted_hid [] [Some [124; 0; 0]]) no_effect 0%nat
                 (world_of (lily_open 0%nat))
  = (Ok (command_info 124 None), after_read (world_of (lily_open 0%nat)) 0%nat).
Proof.
  apply (parse_commands_activity_ping (scripted_hid [] [Some [124; 0; 0]])
           no_effect 0%nat 0%nat (world_of (lily_open 0%nat)) 124 0 0 []);
    reflexivity.
Defined.

Lemma parse_commands_only_reads_witness :
  snd (parse_commands (scripted_hid [] [Some [123; 1; 4]]) no_effect 0%nat
         (world_of (lily_open 0%nat)))
  = after_read (world_of (lily_open 0%nat)) 0%nat.
Proof.
  destruct (parse_commands_only_reads (scripted_hid [] [Some [123; 1; 4]])
              no_effect 0%nat 0%nat (world_of (lily_open 0%nat))
              eq_refl eq_refl) as [H|H].
  - exact H.
  - reflexivity.
Defined.

(** ** LED fragmentation on a working device *)

Lemma forallb_is_byte_led_tuples first_led chunk :
  0 <= first_led -> first_led + len chunk <= 256 ->
  Forall (fun hsv => is_byte (Hue hsv) && is_byte (Sat hsv) && is_byte (Val hsv)
                     = true) chunk ->
  forallb is_byte (led_tuples first_led chunk) = true.
Proof.
  intros Hfirst. induction chunk as [|hsv pre IH] using rev_ind;
    intros Hlast Hbytes; [reflexivity|].
  rewrite len_app, len_cons in Hlast. pose proof (len_nonneg (@nil HSV)).
  apply Forall_app in Hbytes as [Hpre Hhsv].
  inversion Hhsv as [|? ? Hc _]; subst.
  rewrite led_tuples_snoc, forallb_app, IH by (try exact Hpre; lia).
  apply andb_prop in Hc as [Hc Hv]. apply andb_prop in Hc as [Hh Hs].
  cbn [forallb]. rewrite Hh, Hs, Hv.
  assert (Hidx : is_byte (first_led + Z.of_nat (length pre)) = true).
  { unfold is_byte, len in *. apply andb_true_intro. split.
    - apply Z.leb_le. lia.
    - apply Z.ltb_lt. lia. }
  rewrite Hidx. reflexivity.
Qed.

Lemma led_fragments_within fuel n (P : HSV -> Prop) : forall leds first_led,
  Forall P leds ->
  Forall (fun f => first_led <= f.1
                   /\ f.1 + len f.2 <= first_led + len leds
                   /\ Forall P f.2)
         (led_fragments fuel n leds first_led).
Proof.
  induction fuel as [|fuel IH]; intros leds first_led HP; cbn [led_fragments].
  - constructor; [cbn; repeat split; try lia; exact HP | constructor].
  - destruct (decide (length leds <= n)%nat) as [Hle|Hgt].
    + constructor; [cbn; repeat split; try lia; exact HP | constructor].
    + constructor.
      * cbn [fst snd]. repeat split; [lia | | apply Forall_take, HP].
        unfold len. rewrite length_take. lia.
      * apply (List.Forall_impl
                 (P := fun f => first_led + Z.of_nat n <= f.1
                        /\ f.1 + len f.2
                           <= first_led + Z.of_nat n + len (drop n leds)
                        /\ Forall P f.2)).
        -- intros f (H1 & H2 & H3). unfold len in *.
           rewrite length_drop in H2. repeat split; [lia | lia | exact H3].
        -- apply IH, Forall_drop, HP.
Qed.

Lemma led_fragments_length fuel n : forall leds first_led,
  (1 <= n)%nat -> (length leds <= fuel)%nat ->
  length (led_fragments fuel n leds first_led)
  = Nat.max 1 ((length leds + n - 1) / n).
Proof.
  induction fuel as [|fuel IH]; intros leds first_led Hn Hfuel;
    cbn [led_fragments].
  - assert (length leds = 0)%nat as -> by lia.
    rewrite Nat.div_small by lia. reflexivity.
  - destruct (decide (length leds <= n)%nat) as [Hle|Hgt].
    + cbn [length].
      assert ((length leds + n - 1) / n < 2)%nat; [|lia].
      apply Nat.Div0.div_lt_upper_bound. lia.
    + cbn [length]. rewrite IH by (try rewrite length_drop; lia).
      rewrite length_drop.
      replace (length leds + n - 1)%nat
        with ((length leds - n + n - 1) + 1 * n)%nat by lia.
      rewrite Nat.div_add by lia.
      assert (1 <= (length leds - n + n - 1) / n)%nat; [|lia].
      apply Nat.div_le_lower_bound; lia.
Qed.

Section WorkingDevice.

Variable hid : HidApi.

Lemma send_each_working self dev command_type : forall payloads w,
  qmk (heap w self) = Some dev ->
  (forall tr data, exists n, hid_write hid tr dev data = Some n) ->
  Forall (fun p => 3 + len p <= packet_size (heap w self)
                   /\ forallb is_byte (construct_command_packet command_type p)
                      = true) payloads ->
  send_each hid self command_type payloads w
  = (Ok tt,
     mkWorld (heap w)
       (trace w ++ map (fun p => HidWrite dev
                                   (construct_command_packet command_type p))
                       payloads)).
Proof.
  induction payloads as [|p rest IH]; intros w Hq Hok Hall.
  - cbn. rewrite app_nil_r. destruct w; reflexivity.
  - inversion Hall as [|? ? [Hfit Hbytes] Hrest]; subst.
    cbn [send_each map]. unfold bind, send_command.
    rewrite write_fits by (rewrite len_packet; exact Hfit).
    rewrite Hq, Hbytes. cbn zeta.
    destruct (Hok (trace w) (construct_command_packet command_type p))
      as [n ->].
    rewrite IH; [|exact Hq | exact Hok | exact Hrest].
    cbn [heap trace]. rewrite <- app_assoc. reflexivity.
Qed.

Lemma set_RGB_LEDs_working_run self dev depth led_values first_led w :
  let lpc := (packet_size (heap w self) - 3) `div` 4 in
  qmk (heap w self) = Some dev ->
  (forall tr data, exists n, hid_write hid tr dev data = Some n) ->
  1 <= lpc -> packet_size (heap w self) <= 258 ->
  0 <= first_led -> first_led + len led_values <= 256 ->
  Forall (fun hsv => is_byte (Hue hsv) && is_byte (Sat hsv) && is_byte (Val hsv)
                     = true) led_values ->
  (length led_values < depth)%nat ->
  set_RGB_LEDs hid depth self led_values first_led w
  = (Ok tt,
     mkWorld (heap w)
       (trace w
        ++ map (fun f => HidWrite dev
                           (construct_command_packet Commands.KB_Set_RGB_LEDs
                              (led_tuples f.1 f.2)))
               (led_fragments (length led_values) (Z.to_nat lpc)
                              led_values first_led))).
Proof.
  intros lpc Hq Hok Hlpc Hmax Hfirst Hlast Hbytes Hdepth.
  rewrite (set_RGB_LEDs_run hid self lpc (length led_values) led_values
             first_led depth w Hlpc eq_refl (Nat.le_refl _) Hdepth).
  rewrite (send_each_working self dev Commands.KB_Set_RGB_LEDs _ w Hq Hok).
  - rewrite map_map. reflexivity.
  - apply Forall_map.
    pose proof (led_fragments_sizes (length led_values) (Z.to_nat lpc)
                  led_values first_led ltac:(lia) (Nat.le_refl _)) as Hsizes.
    pose proof (led_fragments_within (length led_values) (Z.to_nat lpc) _
                  led_values first_led Hbytes) as Hwithin.
    pose proof (Z.mul_div_le (packet_size (heap w self) - 3) 4 ltac:(lia))
      as Hdiv. fold lpc in Hdiv.
    induction Hwithin as [|f fs (Hlo & Hhi & Hf) _ IH];
      [constructor|].
    inversion Hsizes as [|? ? Hsize Hsizes']; subst.
    constructor; [|exact (IH Hsizes')].
    cbn beta. rewrite len_led_tuples.
    assert (Hlen : 4 * len f.2 <= packet_size (heap w self) - 3)
      by (unfold len; lia).
    split; [lia|].
    unfold construct_command_packet. cbn [app forallb].
    rewrite len_led_tuples.
    rewrite forallb_is_byte_led_tuples by (try exact Hf; lia).
    assert (Hn : is_byte (4 * len f.2) = true).
    { unfold is_byte. apply andb_true_intro. split.
      - apply Z.leb_le. pose proof (len_nonneg f.2). lia.
      - apply Z.ltb_lt. lia. }
    rewrite Hn. reflexivity.
Qed.

(** X14.  On a keyboard with a handle whose transport accepts every write,
    [set_RGB_LEDs] with LED indices and colour components in 0..255 returns
    normally, changes no keyboard, and has handed the transport one packet
    per fragment, in order, each [[0, 3, 4 * leds]] followed by the
    fragment's tuples. *)
Theorem set_RGB_LEDs_working_device self dev depth led_values first_led w :
  let lpc := (packet_size (heap w self) - 3) `div` 4 in
  qmk (heap w self) = Some dev ->
  (forall tr data, exists n, hid_write hid tr dev data = Some n) ->
  1 <= lpc -> packet_size (heap w self) <= 258 ->
  0 <= first_led -> first_led + len led_values <= 256 ->
  Forall (fun hsv => is_byte (Hue hsv) && is_byte (Sat hsv) && is_byte (Val hsv)
                     = true) led_values ->
  (length led_values < depth)%nat ->
  set_RGB_LEDs hid depth self led_values first_led w
  = (Ok tt,
     mkWorld (heap w)
       (trace w
        ++ map (fun f => HidWrite dev
                           ([0; 3; 4 * len f.2] ++ led_tuples f.1 f.2))
               (led_fragments (length led_values) (Z.to_nat lpc)
                              led_values first_led))).
Proof.
  intros lpc Hq Hok Hlpc Hmax Hfirst Hlast Hbytes Hdepth.
  rewrite (set_RGB_LEDs_working_run self dev depth led_values first_led w
             Hq Hok Hlpc Hmax Hfirst Hlast Hbytes Hdepth).
  do 3 f_equal. apply map_ext. intros f.
  unfold construct_command_packet. rewrite len_led_tuples. reflexivity.
Qed.

(** X15.  The number of packets [set_RGB_LEDs] writes on such a device: one for an
    empty list, and otherwise the number of LEDs divided by
    [floor((packet_size - 3) / 4)], rounded up. *)
Theorem set_RGB_LEDs_packet_count self dev depth led_values first_led w :
  let lpc := Z.to_nat ((packet_size (heap w self) - 3) `div` 4) in
  qmk (heap w self) = Some dev ->
  (forall tr data, exists n, hid_write hid tr dev data = Some n) ->
  (1 <= lpc)%nat -> packet_size (heap w self) <= 258 ->
  0 <= first_led -> first_led + len led_values <= 256 ->
  Forall (fun hsv => is_byte (Hue hsv) && is_byte (Sat hsv) && is_byte (Val hsv)
                     = true) led_values ->
  (length led_values < depth)%nat ->
  count_events is_write
    (trace (snd (set_RGB_LEDs hid depth self led_values first_led w)))
  = (count_events is_write (trace w)
     + Nat.max 1 ((length led_values + lpc - 1) / lpc))%nat.
Proof.
  intros lpc Hq Hok Hlpc Hmax Hfirst Hlast Hbytes Hdepth.
  rewrite (set_RGB_LEDs_working_run self dev depth led_values first_led w
             Hq Hok ltac:(lia) Hmax Hfirst Hlast Hbytes Hdepth).
  cbn [snd trace]. unfold count_events.
  rewrite List.filter_app, length_app. f_equal.
  fold lpc. rewrite <- (led_fragments_length (length led_values) lpc
                          led_values first_led Hlpc (Nat.le_refl _)).
  generalize (led_fragments (length led_values) lpc led_values first_led).
  intros fs. induction fs as [|f fs IH]; [reflexivity|].
  cbn [map List.filter is_write length]. rewrite IH. reflexivity.
Qed.

End WorkingDevice.

(** Twelve LEDs on an open Lily58: two packets, 28 and 20 payload bytes. *)
Lemma set_RGB_LEDs_working_device_witness :
  let w := world_of (lily_open 0%nat) in
  set_RGB_LEDs (scripted_hid [] []) 13 0%nat (rainbow 12) 0 w
  = (Ok tt,
     mkWorld (heap w)
       [HidWrite 0%nat ([0; 3; 28] ++ led_tuples 0 (take 7 (rainbow 12)));
        HidWrite 0%nat ([0; 3; 20] ++ led_tuples 7 (drop 7 (rainbow 12)))]).
Proof.
  cbn zeta.
  rewrite (set_RGB_LEDs_working_device (scripted_hid [] []) 0%nat 0%nat 13
             (rainbow 12) 0 (world_of (lily_open 0%nat))).
  - reflexivity.
  - reflexivity.
  - intros tr data. exists (len data). cbn.
    destruct (count_events is_write tr); reflexivity.
  - vm_compute. discriminate.
  - vm_compute. discriminate.
  - lia.
  - vm_compute. discriminate.
  - repeat constructor.
  - vm_compute. lia.
Defined.

Lemma set_RGB_LEDs_packet_count_witness :
  count_events is_write
    (trace (snd (set_RGB_LEDs (scripted_hid [] []) 13 0%nat (rainbow 12) 0
                   (world_of (lily_open 0%nat)))))
  = 2%nat.
Proof.
  rewrite (set_RGB_LEDs_packet_count (scripted_hid [] []) 0%nat 0%nat 13
             (rainbow 12) 0 (world_of (lily_open 0%nat))).
  - reflexivity.
  - reflexivity.
  - intros tr data. exists (len data). cbn.
    destruct (count_events is_write tr); reflexivity.
  - vm_compute. lia.
  - vm_compute. discriminate.
  - lia.
  - vm_compute. discriminate.
  - repeat constructor.
  - vm_compute. lia.
Defined.

(** ** [overflow_int8] *)

(** X16.  [overflow_int8] brings a value of at most 510 back into 0..255, but not
    by reduction modulo 256: it subtracts 255, so a wrapped value is one
    more than the remainder and never 0. *)
Theorem overflow_int8_range uint8 :
  0 <= uint8 <= 510 ->
  0 <= overflow_int8 uint8 <= 255
  /\ (uint8 <= 255 -> overflow_int8 uint8 = uint8)
  /\ (255 < uint8 -> overflow_int8 uint8 = uint8 `mod` 256 + 1).
Proof.
  intros H. unfold overflow_int8.
  destruct (Z.ltb_spec 255 uint8) as [Hbig|Hsmall].
  - repeat split; [lia | lia | lia |]. intros _.
    replace uint8 with (uint8 - 256 + 1 * 256) at 2 by lia.
    rewrite Z.mod_add, Z.mod_small by lia. lia.
  - repeat split; lia.
Qed.

Lemma overflow_int8_range_witness :
  overflow_int8 256 = 1 /\ overflow_int8 255 = 255.
Proof.
  destruct (overflow_int8_range 256) as (_ & _ & H1); [lia|].
  destruct (overflow_int8_range 255) as (_ & H2 & _); [lia|].
  split; [apply H1; lia | apply H2; lia].
Defined.

(** ** [AmadeaSystemMap] *)

Lemma get_qmkid_by_pkid_loop_In members pk q :
  QMKGear.get_qmkid_by_pkid_loop members pk = Ok q ->
  In q (map QMKGear.qmk_id members).
Proof.
  induction members as [|m rest IH]; cbn; [discriminate|].
  destruct (String.eqb (QMKGear.pk_id m) pk).
  - intros [= <-]. left. reflexivity.
  - intros H. right. apply IH, H.
Qed.

Lemma get_pkid_by_qmkid_loop_In members q pk :
  QMKGear.get_pkid_by_qmkid_loop members q = Ok pk ->
  In pk (map QMKGear.pk_id members).
Proof.
  induction members as [|m rest IH]; cbn; [discriminate|].
  destruct (QMKGear.qmk_id m =? q).
  - intros [= <-]. left. reflexivity.
  - intros H. right. apply IH, H.
Qed.

(** X17.  The two id lookups of the system map are inverse to each other as long
    as the ids they return are not shared: a keyboard id found for a
    PluralKit id leads back to it when no two members have the same
    keyboard id, and the other way round when no two members have the same
    PluralKit id. *)
Theorem system_map_round_trip (self : QMKGear.AmadeaSystemMap) pk q :
  (QMKGear.get_qmkid_by_pkid self pk = Ok q ->
   NoDup (map QMKGear.qmk_id (QMKGear.members self)) ->
   QMKGear.get_pkid_by_qmkid self q = Ok pk)
  /\ (QMKGear.get_pkid_by_qmkid self q = Ok pk ->
      NoDup (map QMKGear.pk_id (QMKGear.members self)) ->
      QMKGear.get_qmkid_by_pkid self pk = Ok q).
Proof.
  unfold QMKGear.get_qmkid_by_pkid, QMKGear.get_pkid_by_qmkid.
  destruct self as [sid members]. cbn [QMKGear.members]. split.
  - induction members as [|m rest IH]; cbn; [discriminate|].
    intros Hfind Hnodup.
    inversion Hnodup as [|? ? Hfresh Hnodup']; subst. clear Hnodup.
    destruct (String.eqb_spec (QMKGear.pk_id m) pk) as [Hpk|Hpk].
    + injection Hfind as <-. rewrite Z.eqb_refl. congruence.
    + destruct (Z.eqb_spec (QMKGear.qmk_id m) q) as [Hq|Hq].
      * exfalso. apply Hfresh. rewrite Hq. apply list_elem_of_In.
        eapply get_qmkid_by_pkid_loop_In, Hfind.
      * apply IH; assumption.
  - induction members as [|m rest IH]; cbn; [discriminate|].
    intros Hfind Hnodup.
    inversion Hnodup as [|? ? Hfresh Hnodup']; subst. clear Hnodup.
    destruct (Z.eqb_spec (QMKGear.qmk_id m) q) as [Hq|Hq].
    + injection Hfind as <-. rewrite String.eqb_refl. congruence.
    + destruct (String.eqb_spec (QMKGear.pk_id m) pk) as [Hpk|Hpk].
      * exfalso. apply Hfresh. rewrite Hpk. apply list_elem_of_In.
        eapply get_pkid_by_qmkid_loop_In, Hfind.
      * apply IH; assumption.
Qed.

Lemma system_map_round_trip_witness :
  QMKGear.get_qmkid_by_pkid sample_map "hibik" = Ok 2
  /\ QMKGear.get_pkid_by_qmkid sample_map 2 = Ok "hibik"%string.
Proof.
  split; [reflexivity|].
  apply (system_map_round_trip sample_map "hibik" 2); [reflexivity|].
  cbn. repeat constructor; set_solver.
Defined.

(** X18.  The three lookups agree on what is in the map: [get_pkid_by_qmkid]
    answers with the PluralKit id of the member [get_member_by_qmkid]
    returns, and raises [KeyError] exactly where that returns [None], which
    is exactly when no member has the keyboard id; a member that is
    returned has the id asked for. *)
Theorem system_map_lookups_agree (self : QMKGear.AmadeaSystemMap) q :
  QMKGear.get_pkid_by_qmkid self q
  = match QMKGear.get_member_by_qmkid self q with
    | Some member => Ok (QMKGear.pk_id member)
    | None => Raise KeyError
    end
  /\ (QMKGear.get_member_by_qmkid self q = None
      <-> ~ In q (map QMKGear.qmk_id (QMKGear.members self)))
  /\ (forall member,
        QMKGear.get_member_by_qmkid self q = Some member ->
        QMKGear.qmk_id member = q /\ In member (QMKGear.members self)).
Proof.
  unfold QMKGear.get_pkid_by_qmkid, QMKGear.get_member_by_qmkid.
  destruct self as [sid members]. cbn [QMKGear.members].
  induction members as [|m rest (IH1 & IH2 & IH3)]; cbn.
  - repeat split; [tauto | discriminate | discriminate].
  - destruct (Z.eqb_spec (QMKGear.qmk_id m) q) as [Hq|Hq].
    + repeat split.
      * discriminate.
      * intros H. exfalso. apply H. left. exact Hq.
      * injection H as <-. exact Hq.
      * injection H as <-. left. reflexivity.
    + split; [exact IH1|]. split.
      * rewrite IH2. tauto.
      * intros member H. destruct (IH3 member H) as [H1 H2].
        split; [exact H1 | right; exact H2].
Qed.

(** ** The callbacks of [QMKGear.py] *)

(** Two worlds whose keyboards differ at most in their [connected] flags. *)
Lemma same_wiring_fields (a b : QMKKeyboard) :
  set_connected true a = set_connected true b ->
  qmk a = qmk b /\ vendor_id a = vendor_id b /\ product_id a = product_id b
  /\ packet_size a = packet_size b.
Proof.
  intros H. repeat split.
  - apply (f_equal qmk) in H. exact H.
  - apply (f_equal vendor_id) in H. exact H.
  - apply (f_equal product_id) in H. exact H.
  - apply (f_equal packet_size) in H. exact H.
Qed.

Section Callbacks.

Variable hid : HidApi.

(** A write whose [KeyboardDisconnected] is passed over, as the loops of
    [QMKGear.py] do it. *)
Lemma guarded_write r packet w :
  len packet <= packet_size (heap w r) ->
  forallb is_byte packet = true ->
  exists w1,
    try_except (write hid r packet ;;; ret tt) is_KeyboardDisconnected (ret tt) w
    = (Ok tt, w1)
    /\ (forall r', set_connected true (heap w1 r')
                   = set_connected true (heap w r'))
    /\ trace w1 = trace w ++ match qmk (heap w r) with
                             | Some dev => [HidWrite dev packet]
                             | None => []
                             end.
Proof.
  intros Hfit Hbytes. unfold try_except, bind.
  rewrite write_fits by exact Hfit. rewrite Hbytes.
  assert (Hoff : forall tr r',
             set_connected true (heap (mark_disconnected r w tr) r')
             = set_connected true (heap w r')).
  { intros tr r'. cbn [heap mark_disconnected].
    destruct (decide (r = r')) as [->|Hne].
    - rewrite fn_lookup_insert. reflexivity.
    - rewrite fn_lookup_insert_ne by exact Hne. reflexivity. }
  destruct (qmk (heap w r)) as [dev|].
  - cbn zeta. destruct (hid_write hid (trace w) dev packet).
    + eexists. split; [reflexivity|]. split; [reflexivity|]. reflexivity.
    + eexists. split; [reflexivity|]. split; [apply Hoff|]. reflexivity.
  - eexists. split; [reflexivity|]. split; [apply Hoff|].
    cbn. symmetry. apply app_nil_r.
Qed.

Lemma handle_activity_ping_loop_pongs pinging w0 : forall _keyboards w,
  (forall r, set_connected true (heap w r) = set_connected true (heap w0 r)) ->
  Forall (fun r => 4 <= packet_size (heap w0 r)) _keyboards ->
  exists w',
    QMKGear.handle_activity_ping_loop hid pinging _keyboards w = (Ok tt, w')
    /\ trace w'
       = trace w
         ++ flat_map (fun r =>
                        if QMKKeyboard_eq (heap w0 r) (heap w0 pinging) then []
                        else match qmk (heap w0 r) with
                             | Some dev => [HidWrite dev [0; 4; 1; 0]]
                             | None => []
                             end) _keyboards.
Proof.
  induction _keyboards as [|r rest IH]; intros w Hsame Hsize.
  - exists w. split; [reflexivity | symmetry; apply app_nil_r].
  - inversion Hsize as [|? ? Hr Hrest]; subst.
    destruct (same_wiring_fields _ _ (Hsame r)) as (Hq & Hv & Hp & Hs).
    destruct (same_wiring_fields _ _ (Hsame pinging)) as (_ & Hv' & Hp' & _).
    cbn [QMKGear.handle_activity_ping_loop flat_map].
    unfold bind at 1, get_obj at 1. unfold bind at 1, get_obj at 1.
    assert (Heq : QMKKeyboard_eq (heap w r) (heap w pinging)
                  = QMKKeyboard_eq (heap w0 r) (heap w0 pinging)).
    { unfold QMKKeyboard_eq. rewrite Hv, Hp, Hv', Hp'. reflexivity. }
    rewrite Heq.
    destruct (QMKKeyboard_eq (heap w0 r) (heap w0 pinging)).
    + cbn [negb]. unfold bind at 1, ret at 1. apply IH; assumption.
    + cbn [negb].
      destruct (guarded_write r [0; 4; 1; 0] w) as (w1 & Hrun & Hsame1 & Htr);
        [change (len [0; 4; 1; 0]) with 4; lia | reflexivity |].
      unfold bind at 1.
      change (send_activity_ping hid r)
        with (write hid r [0; 4; 1; 0] ;;; ret tt).
      rewrite Hrun.
      destruct (IH w1) as (w' & IHr & IHt); [|exact Hrest|].
      * intros r'. rewrite Hsame1. apply Hsame.
      * exists w'. split; [exact IHr|].
        rewrite IHt, Htr, Hq. symmetry. apply app_assoc.
Qed.

(** X19.  [handle_activity_ping] never raises when the ping fits the packets
    (packet size at least 4), connected or not; and the transport sees one
    write of [[0, 4, 1, 0]] for each listed keyboard that holds a handle
    and differs from the pinging one in vendor or product id, in list
    order, and nothing else. *)
Theorem handle_activity_ping_pongs keyboards pinging w :
  Forall (fun r => 4 <= packet_size (heap w r)) keyboards ->
  fst (QMKGear.handle_activity_ping hid keyboards pinging w) = Ok tt
  /\ trace (snd (QMKGear.handle_activity_ping hid keyboards pinging w))
     = trace w
       ++ flat_map (fun r =>
                      if QMKKeyboard_eq (heap w r) (heap w pinging) then []
                      else match qmk (heap w r) with
                           | Some dev => [HidWrite dev [0; 4; 1; 0]]
                           | None => []
                           end) keyboards.
Proof.
  intros Hsize. unfold QMKGear.handle_activity_ping.
  destruct (handle_activity_ping_loop_pongs pinging w keyboards w
              (fun _ => eq_refl) Hsize) as (w' & -> & Htr).
  split; [reflexivity | exact Htr].
Qed.

(** X20.  A keyboard of the same model as the pinging one gets no pong, the
    pinging keyboard itself included: when every listed keyboard has the
    vendor and product id of the pinging one, [handle_activity_ping] leaves
    the world exactly as it found it. *)
Theorem handle_activity_ping_skips_same_model keyboards pinging w :
  Forall (fun r => QMKKeyboard_eq (heap w r) (heap w pinging) = true)
         keyboards ->
  QMKGear.handle_activity_ping hid keyboards pinging w = (Ok tt, w).
Proof.
  unfold QMKGear.handle_activity_ping.
  induction keyboards as [|r rest IH]; intros Hsame; [reflexivity|].
  inversion Hsame as [|? ? Hr Hrest]; subst.
  cbn [QMKGear.handle_activity_ping_loop]. unfold bind, get_obj.
  rewrite Hr. cbn [negb]. unfold ret at 1. apply IH, Hrest.
Qed.

Lemma send_current_fronter_loop_sends id w0 : forall _keyboards w,
  0 <= id <= 3 ->
  (forall r, set_connected true (heap w r) = set_connected true (heap w0 r)) ->
  Forall (fun r => 4 <= packet_size (heap w0 r)) _keyboards ->
  exists w',
    QMKGear.send_current_fronter hid id _keyboards w = (Ok tt, w')
    /\ trace w'
       = trace w
         ++ flat_map (fun r => match qmk (heap w0 r) with
                               | Some dev => [HidWrite dev [0; 1; 1; id]]
                               | None => []
                               end) _keyboards.
Proof.
  intros _keyboards w Hid. revert w.
  induction _keyboards as [|r rest IH]; intros w Hsame Hsize.
  - exists w. split; [reflexivity | symmetry; apply app_nil_r].
  - inversion Hsize as [|? ? Hr Hrest]; subst.
    destruct (same_wiring_fields _ _ (Hsame r)) as (Hq & _ & _ & Hs).
    cbn [QMKGear.send_current_fronter flat_map].
    assert (Hbytes : forallb is_byte [0; 1; 1; id] = true).
    { cbn. unfold is_byte.
      destruct (Z.leb_spec 0 id); [|lia]. destruct (Z.ltb_spec id 256); [|lia].
      reflexivity. }
    destruct (guarded_write r [0; 1; 1; id] w) as (w1 & Hrun & Hsame1 & Htr);
      [change (len [0; 1; 1; id]) with 4; lia | exact Hbytes |].
    assert (Hsend : send_current_fronter hid r id
                    = (write hid r [0; 1; 1; id] ;;; ret tt)).
    { unfold send_current_fronter.
      destruct (SystemMembers_of_value_Some id Hid) as [m ->]. reflexivity. }
    unfold bind at 1. rewrite Hsend, Hrun.
    destruct (IH w1) as (w' & IHr & IHt); [|exact Hrest|].
    + intros r'. rewrite Hsame1. apply Hsame.
    + exists w'. split; [exact IHr|].
      rewrite IHt, Htr, Hq. symmetry. apply app_assoc.
Qed.

(** X21.  [send_current_fronter(_keyboards)] with a fronter id in 0..3 never
    raises when the packet fits: disconnected keyboards are passed over, and
    every listed keyboard that holds a handle is handed [[0, 1, 1, id]], in
    list order.  With an id outside 0..3 the first keyboard already raises
    [ValueError], which is not caught, and nothing is sent to anyone. *)
Theorem send_current_fronter_to_all fronters_qmk_id _keyboards w :
  (0 <= fronters_qmk_id <= 3 ->
   Forall (fun r => 4 <= packet_size (heap w r)) _keyboards ->
   fst (QMKGear.send_current_fronter hid fronters_qmk_id _keyboards w) = Ok tt
   /\ trace (snd (QMKGear.send_current_fronter hid fronters_qmk_id
                                               _keyboards w))
      = trace w
        ++ flat_map (fun r => match qmk (heap w r) with
                              | Some dev =>
                                [HidWrite dev [0; 1; 1; fronters_qmk_id]]
                              | None => []
                              end) _keyboards)
  /\ (~ (0 <= fronters_qmk_id <= 3) -> _keyboards <> [] ->
      QMKGear.send_current_fronter hid fronters_qmk_id _keyboards w
      = (Raise ValueError, w)).
Proof.
  split.
  - intros Hid Hsize.
    destruct (send_current_fronter_loop_sends fronters_qmk_id w _keyboards w
                Hid (fun _ => eq_refl) Hsize) as (w' & -> & Htr).
    split; [reflexivity | exact Htr].
  - intros Hid Hne. destruct _keyboards as [|r rest]; [congruence|].
    cbn [QMKGear.send_current_fronter]. unfold bind, try_except.
    unfold send_current_fronter.
    apply SystemMembers_of_value_None in Hid. rewrite Hid. reflexivity.
Qed.

End Callbacks.

(** A ping from the Lily58: the two Navi10 get the pong, the Lily58 none. *)
Lemma handle_activity_ping_pongs_witness :
  let hid := scripted_hid [] [] in
  fst (QMKGear.handle_activity_ping hid [0%nat; 1%nat; 2%nat] 0%nat
                                    lily_and_navis) = Ok tt
  /\ trace (snd (QMKGear.handle_activity_ping hid [0%nat; 1%nat; 2%nat] 0%nat
                                              lily_and_navis))
     = [HidWrite 1%nat [0; 4; 1; 0]; HidWrite 2%nat [0; 4; 1; 0]].
Proof.
  cbn zeta.
  destruct (handle_activity_ping_pongs (scripted_hid [] [])
              [0%nat; 1%nat; 2%nat] 0%nat lily_and_navis) as [H1 H2].
  - repeat constructor; vm_compute; discriminate.
  - split; [exact H1 | rewrite H2; reflexivity].
Defined.

(** Lily58 everywhere: a ping from one reaches none of the others. *)
Lemma handle_activity_ping_skips_same_model_witness :
  QMKGear.handle_activity_ping (scripted_hid [] []) [0%nat; 1%nat; 2%nat]
                               1%nat open_keyboards
  = (Ok tt, open_keyboards).
Proof.
  apply (handle_activity_ping_skips_same_model (scripted_hid [] [])
           [0%nat; 1%nat; 2%nat] 1%nat open_keyboards).
  repeat constructor.
Defined.

(** Member 2 to a Lily58 and a Navi10; member 9 to the same. *)
Lemma send_current_fronter_to_all_witness :
  let hid := scripted_hid [] [] in
  trace (snd (QMKGear.send_current_fronter hid 2 [0%nat; 1%nat]
                                           lily_and_navis))
    = [HidWrite 0%nat [0; 1; 1; 2]; HidWrite 1%nat [0; 1; 1; 2]]
  /\ QMKGear.send_current_fronter hid 9 [0%nat; 1%nat] lily_and_navis
     = (Raise ValueError, lily_and_navis).
Proof.
  cbn zeta.
  destruct (send_current_fronter_to_all (scripted_hid [] []) 2
              [0%nat; 1%nat] lily_and_navis) as [[_ H] _].
  - lia.
  - repeat constructor; vm_compute; discriminate.
  - split; [rewrite H; reflexivity|].
    apply (send_current_fronter_to_all (scripted_hid [] []) 9
             [0%nat; 1%nat] lily_and_navis); [lia | discriminate].
Defined.

(** ** Switching the fronter *)

Section Switching.

Variable hid : HidApi.
Variable Json : Type.
Variable truthy : Json -> bool.
Variable requests_post :
  list Event -> string -> list string -> option string
  -> outcome (pluralKit.Response Json).
Variable amadea_system_map : option QMKGear.AmadeaSystemMap.
Variable pk_token : option string.
Variable keyboards : list obj_ref.

Local Abbreviation handle_switch_fronter :=
  (QMKGear.handle_switch_fronter Json truthy requests_post amadea_system_map
                                 pk_token).
Local Abbreviation gear_call :=
  (QMKGear.call_function hid Json truthy requests_post amadea_system_map
                         pk_token keyboards).

(** [handle_switch_fronter] neither reads nor changes a keyboard and makes
    no transport call. *)
Lemma handle_switch_fronter_world qmk qmk_member_id w :
  snd (handle_switch_fronter qmk qmk_member_id w) = w.
Proof.
  unfold QMKGear.handle_switch_fronter.
  destruct amadea_system_map as [system_map|]; [|reflexivity].
  cbn zeta. unfold bind, try_except.
  destruct (QMKGear.get_member_by_qmkid system_map qmk_member_id) as [m|];
    [|reflexivity].
  unfold pluralKit.set_fronters, pluralKit.api_post. cbn zeta.
  destruct (requests_post _ _ _ _) as [resp|e]; cbn.
  - repeat match goal with
           | |- context [if ?x then _ else _] => destruct x; cbn
           | |- context [match pluralKit.json ?r with _ => _ end] =>
             destruct (pluralKit.json r); cbn
           end; reflexivity.
  - destruct (is_MembersAlreadyFronting e); reflexivity.
Qed.


(** X23.  For a member of the system map, what [handle_switch_fronter] does is
    decided by the status of the switch request: 400 (already fronting) and
    204 (logged) both end in a normal return, 404 and 401 leave the handler
    as [NotFound] and [Unauthorized], and any other status depends on the
    body being JSON.  The request carries the member's PluralKit id alone. *)
Theorem handle_switch_fronter_outcome qmk qmk_member_id w system_map member resp :
  amadea_system_map = Some system_map ->
  QMKGear.get_member_by_qmkid system_map qmk_member_id = Some member ->
  requests_post (trace w) (pluralKit.base_url ++ "/s/switches")%string
                [QMKGear.pk_id member] (pluralKit.headers_of pk_token)
    = Ok resp ->
  handle_switch_fronter qmk qmk_member_id w
  = (if pluralKit.status_code resp =? 404 then Raise NotFound
     else if pluralKit.status_code resp =? 401 then Raise Unauthorized
     else if pluralKit.status_code resp =? 400 then Ok tt
     else if pluralKit.status_code resp =? 204 then Ok tt
     else match pluralKit.json resp with
          | Some _ => Ok tt
          | None => Raise JSONDecodeError
          end,
     w).
Proof.
  intros Hmap Hmember Hresp.
  unfold QMKGear.handle_switch_fronter. rewrite Hmap. cbn zeta.
  rewrite Hmember. unfold bind, try_except.
  unfold pluralKit.set_fronters, pluralKit.api_post. cbn zeta.
  rewrite Hresp.
  destruct (pluralKit.status_code resp =? 404); [reflexivity|].
  destruct (pluralKit.status_code resp =? 401); [reflexivity|].
  destruct (pluralKit.status_code resp =? 400); [reflexivity|].
  destruct (pluralKit.status_code resp =? 204); [reflexivity|].
  destruct (pluralKit.json resp) as [body|]; [|reflexivity].
  cbn. destruct (truthy body); reflexivity.
Qed.

(** X24.  The callbacks of [QMKGear.py] are well behaved: whatever the web
    service and the transport answer, no static field of a keyboard changes
    and the trace only grows; hence the same holds for [parse_commands]
    and the polling loops run with them. *)
Theorem gear_callbacks_well_behaved :
  (forall fn self args, well_behaved (gear_call fn self args))
  /\ (forall self, well_behaved (parse_commands hid gear_call self))
  /\ (forall kbs, well_behaved (poll_for_new_commands hid gear_call kbs))
  /\ (forall kbs, well_behaved (poll_for_new_commands_fast hid gear_call kbs)).
Proof.
  assert (Hswitch : forall qmk id, well_behaved (handle_switch_fronter qmk id)).
  { intros qmk id w. rewrite handle_switch_fronter_world.
    split; [reflexivity | exists []; symmetry; apply app_nil_r]. }
  assert (Hping : forall kbs pinging,
             well_behaved (QMKGear.handle_activity_ping_loop hid pinging kbs)).
  { intros kbs pinging. induction kbs as [|r rest IH];
      cbn [QMKGear.handle_activity_ping_loop]; [apply wb_ret|].
    apply wb_bind; [apply wb_get_obj | intros this].
    apply wb_bind; [apply wb_get_obj | intros pinging'].
    apply wb_bind; [|intros _; exact IH].
    destruct (negb (QMKKeyboard_eq this pinging')); [|apply wb_ret].
    apply wb_try_except; [apply wb_send_activity_ping | apply wb_ret]. }
  assert (Hcall : forall fn self args, well_behaved (gear_call fn self args)).
  { intros fn self args. unfold QMKGear.call_function.
    destruct fn as [|[|[|fn]]]; destruct args as [|[| n |items] [|arg args]];
      first [ apply wb_raise | apply wb_ret | apply Hswitch | apply Hping ]. }
  split; [exact Hcall|]. split; [|split].
  - intros self. apply wb_parse_commands, Hcall.
  - intros kbs. apply wb_poll_rounds, Hcall.
  - intros kbs. unfold poll_for_new_commands_fast.
    apply wb_bind; [|intros _; apply wb_ret].
    apply wb_poll_keyboards; [exact Hcall | apply wb_ret].
Qed.

(** X25.  A switch request [[122, n, member, ...]] from a keyboard that has the
    callbacks of [QMKGear.py], for a member id in 0..3 that the system map
    lacks: the [AttributeError] of the handler leaves [parse_commands], and
    with it [poll_for_new_commands_fast], uncaught. *)
Theorem switch_request_for_unmapped_member self dev w system_map n member rest
    others :
  qmk (heap w self) = Some dev ->
  callbacks (heap w self) = QMKGear.command_callbacks ->
  hid_read hid (trace w) dev 32 100 = Some (122 :: n :: member :: rest) ->
  0 <= member <= 3 ->
  amadea_system_map = Some system_map ->
  QMKGear.get_member_by_qmkid system_map member = None ->
  let w' := mkWorld (heap w)
              (trace w ++ [HidRead dev 32 100; Call 1%nat self [PyInt member]])
  in
  parse_commands hid gear_call self w = (Raise AttributeError, w')
  /\ poll_for_new_commands_fast hid gear_call (self :: others) w
     = (Raise AttributeError, w').
Proof.
  intros Hq Hcb Hr Hm Hmap Hnone w'.
  assert (Hparse : parse_commands hid gear_call self w
                   = (Raise AttributeError, w')).
  { rewrite (parse_commands_after_read hid gear_call self dev w _ Hq Hr)
      by (rewrite !len_cons; pose proof (len_nonneg rest); lia).
    cbn [nth drop]. cbn zeta.
    change (122 =? 0) with false. change (122 =? 120) with false.
    change (122 =? 121) with false. change (122 =? 122) with true.
    cbn iota.
    destruct (SystemMembers_of_value_Some member Hm) as [m ->].
    unfold run_callback, invoke, bind, get_obj, emit.
    cbn [heap after_read]. rewrite Hcb.
    change (QMKGear.command_callbacks !! 122) with (Some 1%nat).
    cbn beta iota. unfold QMKGear.call_function, QMKGear.handle_switch_fronter.
    rewrite Hmap. cbn zeta. rewrite Hnone.
    unfold bind, try_except, raise. cbn [is_MembersAlreadyFronting].
    subst w'. unfold after_read. cbn [heap trace].
    rewrite <- app_assoc. reflexivity. }
  split; [exact Hparse|].
  unfold poll_for_new_commands_fast. cbn [poll_keyboards].
  unfold bind. rewrite Hparse. reflexivity.
Qed.

(** X26.  An activity ping [[124, ...]] from a keyboard that has the callbacks of
    [QMKGear.py]: [parse_commands] returns the event, whether or not the
    other keyboards can be written to, and between the read and the return
    every listed keyboard of another model that holds a handle is handed
    the ping [[0, 4, 1, 0]]. *)
Theorem activity_ping_is_relayed self dev w n b rest :
  qmk (heap w self) = Some dev ->
  callbacks (heap w self) = QMKGear.command_callbacks ->
  hid_read hid (trace w) dev 32 100 = Some (124 :: n :: b :: rest) ->
  Forall (fun r => 4 <= packet_size (heap w r)) keyboards ->
  fst (parse_commands hid gear_call self w) = Ok (command_info 124 None)
  /\ trace (snd (parse_commands hid gear_call self w))
     = trace w
       ++ [HidRead dev 32 100; Call 2%nat self []]
       ++ flat_map (fun r =>
                      if QMKKeyboard_eq (heap w r) (heap w self) then []
                      else match qmk (heap w r) with
                           | Some dev' => [HidWrite dev' [0; 4; 1; 0]]
                           | None => []
                           end) keyboards.
Proof.
  intros Hq Hcb Hr Hsize.
  rewrite (parse_commands_after_read hid gear_call self dev w _ Hq Hr)
    by (rewrite !len_cons; pose proof (len_nonneg rest); lia).
  cbn [nth]. cbn zeta.
  change (124 =? 0) with false. change (124 =? 120) with false.
  change (124 =? 121) with false. change (124 =? 122) with false.
  change (124 =? 123) with false. change (124 =? 124) with true.
  cbn iota.
  unfold run_callback, invoke, bind, get_obj, emit.
  cbn [heap after_read]. rewrite Hcb.
  change (QMKGear.command_callbacks !! 124) with (Some 2%nat).
  cbn beta iota. unfold QMKGear.call_function, QMKGear.handle_activity_ping.
  unfold after_read. cbn [heap trace].
  set (w2 := mkWorld (heap w)
               ((trace w ++ [HidRead dev 32 100]) ++ [Call 2%nat self []])).
  destruct (handle_activity_ping_loop_pongs hid self w keyboards w2
              (fun _ => eq_refl) Hsize) as (w3 & -> & Htr).
  cbn [fst snd ret]. split; [reflexivity|].
  rewrite Htr. subst w2. cbn [trace]. rewrite <- !app_assoc. reflexivity.
Qed.

End Switching.


(** Hibiki is already fronting (400); the service does not know the system
    (404). *)
Lemma handle_switch_fronter_outcome_witness :
  QMKGear.handle_switch_fronter unit (fun _ => true) (answers 400)
    (Some sample_map) None 0%nat 2 (world_of (lily_open 0%nat))
  = (Ok tt, world_of (lily_open 0%nat))
  /\ QMKGear.handle_switch_fronter unit (fun _ => true) (answers 404)
       (Some sample_map) None 0%nat 2 (world_of (lily_open 0%nat))
     = (Raise NotFound, world_of (lily_open 0%nat)).
Proof.
  split.
  - apply (handle_switch_fronter_outcome unit (fun _ => true) (answers 400)
             (Some sample_map) None 0%nat 2 (world_of (lily_open 0%nat))
             sample_map (QMKGear.mkSystemMemberMap "Hibiki" "hibik" 2)
             (pluralKit.mkResponse 400 None)); reflexivity.
  - apply (handle_switch_fronter_outcome unit (fun _ => true) (answers 404)
             (Some sample_map) None 0%nat 2 (world_of (lily_open 0%nat))
             sample_map (QMKGear.mkSystemMemberMap "Hibiki" "hibik" 2)
             (pluralKit.mkResponse 404 None)); reflexivity.
Defined.

(** The Lily58 asks for member 0. *)
Lemma switch_request_for_unmapped_member_witness :
  let w := mkWorld (fun _ => mkKeyboard LILY58 0x04D8 0xEB2D 32 0xFF60 0x61
                                        (Some 0%nat) true
                                        QMKGear.command_callbacks) [] in
  fst (parse_commands (scripted_hid [] [Some [122; 1; 0]])
         (QMKGear.call_function (scripted_hid [] [Some [122; 1; 0]]) unit
            (fun _ => true) (answers 204) (Some sample_map) None [0%nat])
         0%nat w)
  = Raise AttributeError.
Proof.
  cbn zeta.
  destruct (switch_request_for_unmapped_member
              (scripted_hid [] [Some [122; 1; 0]]) unit (fun _ => true)
              (answers 204) (Some sample_map) None [0%nat] 0%nat 0%nat
              (mkWorld (fun _ => mkKeyboard LILY58 0x04D8 0xEB2D 32 0xFF60 0x61
                                            (Some 0%nat) true
                                            QMKGear.command_callbacks) [])
              sample_map 1 0 [] [] eq_refl eq_refl eq_refl ltac:(lia) eq_refl
              eq_refl) as [H _].
  rewrite H. reflexivity.
Defined.

(** The Lily58 pings; the Navi10 on device 1 is handed the pong. *)
Lemma activity_ping_is_relayed_witness :
  let w := mkWorld (fun r => match r with
                             | O => mkKeyboard LILY58 0x04D8 0xEB2D 32 0xFF60
                                      0x61 (Some 0%nat) true
                                      QMKGear.command_callbacks
                             | _ => navi_open r
                             end) [] in
  let hid := scripted_hid [] [Some [124; 0; 0]] in
  trace (snd (parse_commands hid
                (QMKGear.call_function hid unit (fun _ => true) (answers 204)
                   (Some sample_map) None [0%nat; 1%nat])
                0%nat w))
  = [HidRead 0%nat 32 100; Call 2%nat 0%nat []; HidWrite 1%nat [0; 4; 1; 0]].
Proof.
  cbn zeta.
  destruct (activity_ping_is_relayed (scripted_hid [] [Some [124; 0; 0]]) unit
              (fun _ => true) (answers 204) (Some sample_map) None
              [0%nat; 1%nat] 0%nat 0%nat
              (mkWorld (fun r => match r with
                                 | O => mkKeyboard LILY58 0x04D8 0xEB2D 32
                                          0xFF60 0x61 (Some 0%nat) true
                                          QMKGear.command_callbacks
                                 | _ => navi_open r
                                 end) [])
              0 0 [] eq_refl eq_refl eq_refl) as [_ H].
  - repeat constructor; vm_compute; discriminate.
  - rewrite H. reflexivity.
Defined.
